(** * golinks: the request-routing, validation and persistence contract

    A shallow embedding of [olympus/portainer-config/golinks/main.go]: the
    handlers are functions from the database handle and the request to the
    new database handle and the response that was written.

    - Go strings are byte strings ([string], one [ascii] per byte) and [==]
      is [String.eqb].
    - The [links] table is the list of its rows in insertion order;
      the handle [db] also records whether the driver is failing.
    - The calls into [net/url] and [encoding/json] are not part of this
      program: [url.Parse] is a parameter of the development and a request
      carries the outcome of decoding its body.
    - [log.Printf] calls write to the process log only and are left out,
      but for the lines [main] logs at start-up. *)

From Stdlib Require Import String Ascii List ZArith NArith Bool Lia.
From Stdlib Require Import Sorting.Sorted Sorting.Permutation.
Import ListNotations.
Local Open Scope string_scope.
Local Open Scope Z_scope.
Local Open Scope list_scope.

(** ** The [strings] package *)

Module strings.

(** [unicode.White_Space], as the ranges of its range table. *)
Definition White_Space : list (N * N) :=
  [ (0x0009, 0x000d); (0x0020, 0x0020); (0x0085, 0x0085); (0x00a0, 0x00a0);
    (0x1680, 0x1680); (0x2000, 0x200a); (0x2028, 0x2029); (0x202f, 0x202f);
    (0x205f, 0x205f); (0x3000, 0x3000) ]%N.

Definition range (lo_hi : N * N) : list N :=
  let (lo, hi) := lo_hi in
  map (fun i => (lo + N.of_nat i)%N) (seq 0 (N.to_nat (hi - lo) + 1)).

(** [utf8.EncodeRune] on the scalar values below U+10000 (all of
    [White_Space] is there). *)
Definition EncodeRune (r : N) : list ascii :=
  if (r <? 0x80)%N then [ascii_of_N r]
  else if (r <? 0x800)%N then
    [ascii_of_N (0xC0 + r / 64); ascii_of_N (0x80 + r mod 64)]
  else
    [ascii_of_N (0xE0 + r / 4096); ascii_of_N (0x80 + (r / 64) mod 64);
     ascii_of_N (0x80 + r mod 64)].

(** The byte sequences that [utf8.DecodeRuneInString] and
    [utf8.DecodeLastRuneInString] decode to a rune satisfying
    [unicode.IsSpace]: only the shortest encoding of a rune decodes to it,
    anything else decodes to [RuneError], which is not a space. *)
Definition spaces : list (list ascii) :=
  Eval cbv in map EncodeRune (flat_map range White_Space).

Fixpoint hasPrefix (p s : list ascii) : bool :=
  match p, s with
  | [], _ => true
  | _ :: _, [] => false
  | a :: p', b :: s' => Ascii.eqb a b && hasPrefix p' s'
  end.

(** One step of a trim loop: the string without the member of [cutset] it
    starts with, if any. *)
Fixpoint cut (cutset : list (list ascii)) (s : list ascii)
  : option (list ascii) :=
  match cutset with
  | [] => None
  | e :: rest =>
      if hasPrefix e s then Some (skipn (length e) s) else cut rest s
  end.

Fixpoint trimLeftN (cutset : list (list ascii)) (n : nat) (s : list ascii)
  : list ascii :=
  match n with
  | O => s
  | S n' =>
      match cut cutset s with
      | Some s' => trimLeftN cutset n' s'
      | None => s
      end
  end.

(** [strings.TrimLeftFunc(s, unicode.IsSpace)]: runes are decoded and dropped
    from the front as long as they are spaces. *)
Definition trimLeft (cutset : list (list ascii)) (s : list ascii) :=
  trimLeftN cutset (length s) s.

(** [strings.TrimRightFunc(s, unicode.IsSpace)]: the same from the back. *)
Definition trimRight (cutset : list (list ascii)) (s : list ascii) :=
  rev (trimLeft (map (@rev ascii) cutset) (rev s)).

(** [strings.TrimSpace]. Its ASCII fast path and its fall-back
    [TrimFunc(s, unicode.IsSpace)] both drop the leading and then the
    trailing spaces. *)
Definition TrimSpace (s : string) : string :=
  string_of_list_ascii
    (trimRight spaces (trimLeft spaces (list_ascii_of_string s))).

(** [strings.HasPrefix]. *)
Definition HasPrefix (s prefix : string) : bool := String.prefix prefix s.

(** [strings.TrimPrefix]. *)
Definition TrimPrefix (s prefix : string) : string :=
  if HasPrefix s prefix
  then substring (String.length prefix)
                 (String.length s - String.length prefix) s
  else s.

(** [strings.Contains]. *)
Fixpoint Contains (s substr : string) : bool :=
  String.prefix substr s
  || match s with
     | EmptyString => false
     | String _ s' => Contains s' substr
     end.

End strings.

(** ** Data model *)

Record Link := mkLink {
  Slug : string;
  URL : string;
  CreatedAt : Z          (* seconds, as [CURRENT_TIMESTAMP] counts them *)
}.

Record AddLinkRequest := mkAddLinkRequest {
  add_Slug : string;
  add_URL : string
}.

Record RemoveLinkRequest := mkRemoveLinkRequest {
  remove_Slug : string
}.

(** The package-level variables [adminUser] and [adminPass], read from the
    environment once in [main]. *)
Record Config := mkConfig {
  adminUser : string;
  adminPass : string
}.

(** Go's [error] values, as far as the program tells them apart:
    the sentinel [sql.ErrNoRows], compared with [==], and errors known by
    their text only ([fmt.Errorf] and the driver's errors). *)
Inductive error :=
| ErrNoRows
| errorString (text : string).

(** The method [Error()]. *)
Definition Error (e : error) : string :=
  match e with
  | ErrNoRows => "sql: no rows in result set"
  | errorString text => text
  end.

(** A call returning [(v, err)] with exactly one of them set. *)
Inductive result (A : Type) :=
| Ok (v : A)
| Err (e : error).
Arguments Ok {A} v.
Arguments Err {A} e.

(** ** The database handle

    [rows] is the [links] table, oldest insertion first. When [fault] is
    [Some text] the driver fails every statement with that error (the file
    cannot be read or written, the database is locked or closed) and the
    table stays as it is. *)
Record DB := mkDB {
  rows : list Link;
  fault : option string
}.

(** A working handle on the table [t]. *)
Definition online (t : list Link) : DB := mkDB t None.

(** The table [initDB] creates. *)
Definition emptyDB : DB := online [].

Definition hasSlug (slug : string) (l : Link) : bool := String.eqb (Slug l) slug.

(** The driver's text for a violated [slug TEXT PRIMARY KEY]. *)
Definition uniqueViolation : string :=
  "constraint failed: UNIQUE constraint failed: links.slug (1555)".

(** [INSERT INTO links (slug, url) VALUES (?, ?)], run when the store's
    clock reads [now]: [created_at] takes its default. *)
Definition execInsert (now : Z) (db : DB) (slug url : string)
  : DB * option error :=
  match fault db with
  | Some text => (db, Some (errorString text))
  | None =>
      if existsb (hasSlug slug) (rows db)
      then (db, Some (errorString uniqueViolation))
      else (mkDB (rows db ++ [mkLink slug url now]) None, None)
  end.

(** [DELETE FROM links WHERE slug = ?], with the number of rows affected. *)
Definition execDelete (db : DB) (slug : string) : DB * result Z :=
  match fault db with
  | Some text => (db, Err (errorString text))
  | None =>
      (mkDB (filter (fun l => negb (hasSlug slug l)) (rows db)) None,
       Ok (Z.of_nat (length (filter (hasSlug slug) (rows db)))))
  end.

(** [SELECT slug, url, created_at FROM links WHERE slug = ?] through
    [QueryRow(...).Scan(...)]: the first row of the answer. *)
Definition queryRow (db : DB) (slug : string) : result Link :=
  match fault db with
  | Some text => Err (errorString text)
  | None =>
      match find (hasSlug slug) (rows db) with
      | Some l => Ok l
      | None => Err ErrNoRows
      end
  end.

(** [ORDER BY created_at DESC]. SQL leaves the order among rows with the
    same timestamp open; here they stay in table order. *)
Fixpoint insertDesc (l : Link) (sorted : list Link) : list Link :=
  match sorted with
  | [] => [l]
  | x :: rest =>
      if CreatedAt x <=? CreatedAt l then l :: sorted
      else x :: insertDesc l rest
  end.

Fixpoint orderByCreatedAtDesc (t : list Link) : list Link :=
  match t with
  | [] => []
  | l :: rest => insertDesc l (orderByCreatedAtDesc rest)
  end.

(** ** HTTP *)

Definition StatusOK : Z := 200.
Definition StatusCreated : Z := 201.
Definition StatusFound : Z := 302.
Definition StatusBadRequest : Z := 400.
Definition StatusUnauthorized : Z := 401.
Definition StatusNotFound : Z := 404.
Definition StatusMethodNotAllowed : Z := 405.
Definition StatusConflict : Z := 409.
Definition StatusInternalServerError : Z := 500.

Definition MethodPost : string := "POST".

(** What a handler reads from [*http.Request]. [BasicAuth] is the outcome
    of [r.BasicAuth()] ([None] for [ok == false]); [Body] is the outcome of
    [json.NewDecoder(r.Body).Decode(&req)] into the handler's request type
    ([None] when decoding fails). *)
Record Request (B : Type) := mkRequest {
  Method : string;
  Path : string;
  BasicAuth : option (string * string);
  Body : option B
}.

Arguments mkRequest {B} Method Path BasicAuth Body.
Arguments Method {B} r.
Arguments Path {B} r.
Arguments BasicAuth {B} r.
Arguments Body {B} r.

(** What a handler writes to [http.ResponseWriter]. *)
Inductive Response :=
| http_Error (text : string) (code : Z)            (* http.Error *)
| http_Redirect (url : string) (code : Z)          (* http.Redirect *)
| writeJSON (code : Z) (fields : list (string * string))
| writeHTML (links : list Link) (count : Z).       (* the listing template *)

Definition StatusCode (resp : Response) : Z :=
  match resp with
  | http_Error _ code => code
  | http_Redirect _ code => code
  | writeJSON code _ => code
  | writeHTML _ _ => StatusOK
  end.

(** [http.NotFound]. *)
Definition http_NotFound : Response :=
  http_Error "404 page not found" StatusNotFound.

Definition Handler (B : Type) : Type := DB -> Request B -> DB * Response.

(** The part of [*url.URL] that the program reads. *)
Module url.
Record URL := mkURL {
  Scheme : string;
  Host : string
}.
End url.

(** ** The program *)

Section Golinks.

(** [url.Parse] of [net/url]; [None] stands for a non-nil error. *)
Variable url_Parse : string -> option url.URL.

(** A handler takes the handle [db] (the package-level variable) and the
    request, and returns the handle after the call with the response it
    wrote. [now] is what the store's clock reads when the handler runs. *)

Definition getLink (db : DB) (slug : string) : result Link :=
  match queryRow db slug with
  | Err ErrNoRows => Err (errorString "link not found")
  | Err e => Err e
  | Ok link => Ok link
  end.

Definition getAllLinks (db : DB) : result (list Link) :=
  match fault db with
  | Some text => Err (errorString text)
  | None => Ok (orderByCreatedAtDesc (rows db))
  end.

Definition addLink (now : Z) (db : DB) (slug url : string)
  : DB * option error :=
  execInsert now db slug url.

(** [RowsAffected] does not fail with this driver; its error branch has no
    counterpart here. *)
Definition removeLink (db : DB) (slug : string) : DB * option error :=
  match execDelete db slug with
  | (db', Err e) => (db', Some e)
  | (db', Ok n) =>
      if n =? 0 then (db', Some (errorString "not found")) else (db', None)
  end.

Definition isValidURL (urlStr : string) : bool :=
  if negb (strings.HasPrefix urlStr "http://")
     && negb (strings.HasPrefix urlStr "https://")
  then false
  else
    match url_Parse urlStr with
    | None => false
    | Some parsedURL =>
        negb (String.eqb (url.Scheme parsedURL) "")
        && negb (String.eqb (url.Host parsedURL) "")
    end.

(** The template is a constant that parses, and an error of [Execute] is
    only logged: the listing is written once the query succeeded. *)
Definition handleListLinks {B} (db : DB) (r : Request B) : DB * Response :=
  match getAllLinks db with
  | Err _ => (db, http_Error "Internal server error" StatusInternalServerError)
  | Ok links => (db, writeHTML links (Z.of_nat (length links)))
  end.

Definition handleRoot {B} (db : DB) (r : Request B) : DB * Response :=
  let path := strings.TrimPrefix (Path r) "/" in
  if String.eqb path "" then handleListLinks db r
  else
    let slug := path in
    match getLink db slug with
    | Err _ => (db, http_NotFound)
    | Ok link => (db, http_Redirect (URL link) StatusFound)
    end.

Definition handleAdminAdd (now : Z) (db : DB) (r : Request AddLinkRequest)
  : DB * Response :=
  if negb (String.eqb (Method r) MethodPost)
  then (db, http_Error "Method not allowed" StatusMethodNotAllowed)
  else
    match Body r with
    | None => (db, http_Error "Invalid JSON" StatusBadRequest)
    | Some req =>
        let slug := strings.TrimSpace (add_Slug req) in
        if String.eqb slug "" || String.eqb slug "admin"
        then (db, http_Error "Invalid slug" StatusBadRequest)
        else
          let url := strings.TrimSpace (add_URL req) in
          if negb (isValidURL url)
          then (db, http_Error
                      "Invalid URL - must start with http:// or https://"
                      StatusBadRequest)
          else
            match addLink now db slug url with
            | (db', Some err) =>
                if strings.Contains (Error err) "UNIQUE constraint"
                then (db', http_Error "Slug already exists" StatusConflict)
                else (db', http_Error "Internal server error"
                                      StatusInternalServerError)
            | (db', None) =>
                (db', writeJSON StatusCreated
                        [("status", "created"); ("slug", slug); ("url", url)])
            end
    end.

Definition handleAdminRemove (db : DB) (r : Request RemoveLinkRequest)
  : DB * Response :=
  if negb (String.eqb (Method r) MethodPost)
  then (db, http_Error "Method not allowed" StatusMethodNotAllowed)
  else
    match Body r with
    | None => (db, http_Error "Invalid JSON" StatusBadRequest)
    | Some req =>
        let slug := strings.TrimSpace (remove_Slug req) in
        if String.eqb slug "" || String.eqb slug "admin"
        then (db, http_Error "Invalid slug" StatusBadRequest)
        else
          match removeLink db slug with
          | (db', Some err) =>
              if strings.Contains (Error err) "not found"
              then (db', http_Error "Slug not found" StatusNotFound)
              else (db', http_Error "Internal server error"
                                    StatusInternalServerError)
          | (db', None) =>
              (db', writeJSON StatusOK [("status", "removed"); ("slug", slug)])
          end
    end.

Definition basicAuth {B} (cfg : Config) (next : Handler B) : Handler B :=
  fun db r =>
    if String.eqb (adminUser cfg) "" || String.eqb (adminPass cfg) ""
    then next db r
    else
      match BasicAuth r with
      | Some (user, pass) =>
          if negb (String.eqb user (adminUser cfg))
             || negb (String.eqb pass (adminPass cfg))
          then (db, http_Error "Unauthorized" StatusUnauthorized)
          else next db r
      | None => (db, http_Error "Unauthorized" StatusUnauthorized)
      end.

(** The two admin routes registered in [main]. *)
Definition adminAdd (cfg : Config) (now : Z) : Handler AddLinkRequest :=
  basicAuth cfg (handleAdminAdd now).

Definition adminRemove (cfg : Config) : Handler RemoveLinkRequest :=
  basicAuth cfg handleAdminRemove.

(** The store states the service can be in: the table [initDB] creates,
    then any sequence of requests to the three routes, with the driver
    failing or recovering in between. *)
Inductive reachable (cfg : Config) : DB -> Prop :=
| reach_init : reachable cfg emptyDB
| reach_add : forall db now r,
    reachable cfg db -> reachable cfg (fst (adminAdd cfg now db r))
| reach_remove : forall db r,
    reachable cfg db -> reachable cfg (fst (adminRemove cfg db r))
| reach_root : forall db (r : Request unit),
    reachable cfg db -> reachable cfg (fst (handleRoot db r))
| reach_fault : forall db f,
    reachable cfg db -> reachable cfg (mkDB (rows db) f).

End Golinks.

(** ** The specification's vocabulary *)

Section Vocabulary.

Variable url_Parse : string -> option url.URL.

(** The store holds an entry for [slug]. *)
Definition stored (db : DB) (slug : string) : bool :=
  existsb (hasSlug slug) (rows db).

(** Rule 2 of the validation rules, on the trimmed slug. *)
Definition spec_validSlug (slug : string) : Prop :=
  strings.TrimSpace slug <> "" /\ strings.TrimSpace slug <> "admin".

(** Rule 3 of the validation rules, on the trimmed url. *)
Definition spec_validURL (u : string) : Prop :=
  (String.prefix "http://" (strings.TrimSpace u) = true
   \/ String.prefix "https://" (strings.TrimSpace u) = true)
  /\ exists parsed, url_Parse (strings.TrimSpace u) = Some parsed
       /\ url.Scheme parsed <> "" /\ url.Host parsed <> "".

(** The ways a url fails rule 3. *)
Definition spec_invalidURL (u : string) : Prop :=
  (String.prefix "http://" (strings.TrimSpace u) = false
   /\ String.prefix "https://" (strings.TrimSpace u) = false)
  \/ url_Parse (strings.TrimSpace u) = None
  \/ exists parsed, url_Parse (strings.TrimSpace u) = Some parsed
       /\ (url.Scheme parsed = "" \/ url.Host parsed = "").

(** The credentials of a request are absent or differ from the configured
    pair. *)
Definition spec_badCredentials {B} (cfg : Config) (r : Request B) : Prop :=
  BasicAuth r = None
  \/ exists user pass, BasicAuth r = Some (user, pass)
       /\ ~ (user = adminUser cfg /\ pass = adminPass cfg).

(** [basicAuth] lets the request through: a credential is unconfigured, or
    the request carries the configured pair. *)
Definition spec_admitted {B} (cfg : Config) (r : Request B) : Prop :=
  adminUser cfg = "" \/ adminPass cfg = ""
  \/ BasicAuth r = Some (adminUser cfg, adminPass cfg).

(** Credentials are configured and those of the request are absent or
    wrong. *)
Definition spec_refused {B} (cfg : Config) (r : Request B) : Prop :=
  adminUser cfg <> "" /\ adminPass cfg <> "" /\ spec_badCredentials cfg r.

(** What holds of every row: the data model's constraints on [slug] and
    [url], and that a slug is stored as it was trimmed. *)
Definition wellFormed (l : Link) : Prop :=
  Slug l <> "" /\ URL l <> "" /\ Slug l <> "admin"
  /\ strings.TrimSpace (Slug l) = Slug l.

(** No member of a cutset is the empty string: a trim loop that finds one
    makes progress. *)
Definition nonempty (cutset : list (list ascii)) : Prop :=
  Forall (fun e => e <> []) cutset.

(** [a] comes before [b] in a listing, newest first. *)
Definition newerOrSame (a b : Link) : Prop := CreatedAt a >= CreatedAt b.

End Vocabulary.

(** ** A parser for the examples *)

Module example.

(** [s] up to its first byte satisfying [stop], and the rest from there. *)
Fixpoint span (stop : ascii -> bool) (s : string) : string * string :=
  match s with
  | EmptyString => (EmptyString, EmptyString)
  | String c s' =>
      if stop c then (EmptyString, s)
      else let (a, b) := span stop s' in (String c a, b)
  end.

Definition endsHost (c : ascii) : bool :=
  Ascii.eqb c "/" || Ascii.eqb c "?" || Ascii.eqb c "#".

(** Stands for [url.Parse] where an example needs a value for it: it reads
    [scheme://host] followed by nothing or by a path, query or fragment,
    and fails on anything else. On the URLs of the examples below it
    returns the scheme and host [url.Parse] returns. *)
Definition Parse (rawURL : string) : option url.URL :=
  let (scheme, rest) := span (Ascii.eqb ":") rawURL in
  if String.prefix "://" rest
  then
    let (host, _) := span endsHost (substring 3 (String.length rest - 3) rest) in
    Some (url.mkURL scheme host)
  else None.

Definition cfgOpen : Config := mkConfig "" "".
Definition cfgGuarded : Config := mkConfig "root" "secret".

Definition addWiki : AddLinkRequest :=
  mkAddLinkRequest "wiki" "https://wiki.example.com".

Definition wiki : Link := mkLink "wiki" "https://wiki.example.com" 100.

Definition post {B} (path : string) (auth : option (string * string))
    (body : B) : Request B :=
  mkRequest "POST" path auth (Some body).

Definition get (path : string) : Request unit :=
  mkRequest "GET" path None None.

End example.

Ltac evaluate := vm_compute; try reflexivity; try discriminate.

(** ** Start-up

    What [main] reads from the environment before it serves, and what it
    logs once [initDB] succeeded. An environment maps the variables that are
    set to their values. *)

(** [os.Getenv]: the empty string for a variable that is not set. *)
Definition Getenv (env : string -> option string) (key : string) : string :=
  match env key with
  | Some value => value
  | None => ""
  end.

Definition getEnv (env : string -> option string) (key defaultValue : string)
  : string :=
  let value := Getenv env key in
  if negb (String.eqb value "") then value else defaultValue.

Record Settings := mkSettings {
  dbPath : string;
  listenAddr : string;
  admin : Config
}.

(** The first four statements of [main]. *)
Definition configure (env : string -> option string) : Settings :=
  mkSettings (getEnv env "DB_PATH" "./data/links.db")
             (getEnv env "LISTEN_ADDR" "0.0.0.0:8080")
             (mkConfig (Getenv env "ADMIN_USER") (Getenv env "ADMIN_PASS")).

(** The lines [main] logs between [initDB] and [ListenAndServe]. *)
Definition startupLog (s : Settings) : list string :=
  [String.append "Starting golinks server on " (listenAddr s);
   String.append "Database: " (dbPath s)]
  ++ (if negb (String.eqb (adminUser (admin s)) "")
      then ["Admin authentication enabled"]
      else []).

(** A row whose url passed [isValidURL] as it is stored. *)
Definition validated (url_Parse : string -> option url.URL) (l : Link) : Prop :=
  isValidURL url_Parse (URL l) = true.

(** ** Trimming *)

Lemma hasPrefix_length p s :
  strings.hasPrefix p s = true -> (length p <= length s)%nat.
Proof.
  revert s; induction p as [|a p IH]; intros [|b s]; simpl;
    try lia; try discriminate.
  intros H. apply andb_true_iff in H as [_ H]. apply IH in H. lia.
Qed.

Lemma hasPrefix_app p s t :
  strings.hasPrefix p s = true -> strings.hasPrefix p (s ++ t) = true.
Proof.
  revert s; induction p as [|a p IH]; intros [|b s]; simpl;
    auto; try discriminate.
  intros H. apply andb_true_iff in H as [Hab H].
  rewrite Hab, (IH _ H). reflexivity.
Qed.

Lemma cut_shorter cutset s s' :
  nonempty cutset ->
  strings.cut cutset s = Some s' -> (length s' < length s)%nat.
Proof.
  induction 1 as [|e T He _ IH]; simpl; [discriminate|].
  destruct (strings.hasPrefix e s) eqn:Hp; [|exact IH].
  intros [= <-]. apply hasPrefix_length in Hp.
  rewrite length_skipn. destruct e; [congruence | simpl in *; lia].
Qed.

Lemma cut_suffix cutset s s' :
  strings.cut cutset s = Some s' -> exists p, s = p ++ s'.
Proof.
  induction cutset as [|e T IH]; simpl; [discriminate|].
  destruct (strings.hasPrefix e s); [|exact IH].
  intros [= <-]. exists (firstn (length e) s).
  symmetry; apply firstn_skipn.
Qed.

Lemma cut_app_None cutset s t :
  strings.cut cutset (s ++ t) = None -> strings.cut cutset s = None.
Proof.
  induction cutset as [|e T IH]; simpl; [reflexivity|].
  destruct (strings.hasPrefix e s) eqn:Hp.
  - rewrite (hasPrefix_app _ _ t Hp). discriminate.
  - destruct (strings.hasPrefix e (s ++ t)); [discriminate | exact IH].
Qed.

Lemma trimLeftN_fixed cutset n s :
  strings.cut cutset s = None -> strings.trimLeftN cutset n s = s.
Proof. intros H. destruct n; simpl; [|rewrite H]; reflexivity. Qed.

Lemma trimLeftN_done cutset n s :
  nonempty cutset ->
  (length s <= n)%nat ->
  strings.cut cutset (strings.trimLeftN cutset n s) = None.
Proof.
  intros Hne. revert s; induction n as [|n IH]; intros s Hn; simpl.
  - destruct s; [|simpl in Hn; lia].
    destruct (strings.cut cutset []) eqn:Hc; [|reflexivity].
    apply cut_shorter in Hc; [|exact Hne]. simpl in Hc. lia.
  - destruct (strings.cut cutset s) eqn:Hc; [|exact Hc].
    apply IH. apply cut_shorter in Hc; [|exact Hne]. lia.
Qed.

Lemma trimLeftN_suffix cutset n s :
  exists p, s = p ++ strings.trimLeftN cutset n s.
Proof.
  revert s; induction n as [|n IH]; intros s; simpl.
  - exists []; reflexivity.
  - destruct (strings.cut cutset s) eqn:Hc; [|exists []; reflexivity].
    destruct (cut_suffix _ _ _ Hc) as [p ->].
    destruct (IH l) as [q Hq]. exists (p ++ q).
    rewrite <- app_assoc, <- Hq. reflexivity.
Qed.

Lemma trimLeft_done cutset s :
  nonempty cutset ->
  strings.cut cutset (strings.trimLeft cutset s) = None.
Proof. intros Hne. apply trimLeftN_done; [exact Hne | lia]. Qed.

Lemma trimLeft_fixed cutset s :
  strings.cut cutset s = None -> strings.trimLeft cutset s = s.
Proof. apply trimLeftN_fixed. Qed.

Lemma rev_nonempty cutset : nonempty cutset -> nonempty (map (@rev ascii) cutset).
Proof.
  intros H. apply Forall_map. eapply Forall_impl; [|exact H].
  intros e He Hr. apply He. rewrite <- (rev_involutive e), Hr. reflexivity.
Qed.

Lemma trimRight_prefix cutset s :
  exists t, s = strings.trimRight cutset s ++ t.
Proof.
  unfold strings.trimRight, strings.trimLeft.
  destruct (trimLeftN_suffix (map (@rev ascii) cutset) (length (rev s)) (rev s))
    as [p Hp].
  exists (rev p).
  rewrite <- rev_app_distr, <- Hp, rev_involutive. reflexivity.
Qed.

Lemma trimRight_fixed cutset s :
  nonempty cutset ->
  strings.trimRight cutset (strings.trimRight cutset s) = strings.trimRight cutset s.
Proof.
  intros Hne. unfold strings.trimRight. rewrite rev_involutive.
  f_equal. apply trimLeft_fixed, trimLeft_done, rev_nonempty, Hne.
Qed.

Lemma trim_idempotent cutset s :
  nonempty cutset ->
  let t := strings.trimRight cutset (strings.trimLeft cutset s) in
  strings.trimRight cutset (strings.trimLeft cutset t) = t.
Proof.
  intros Hne t.
  assert (Hl : strings.trimLeft cutset t = t).
  { apply trimLeft_fixed.
    destruct (trimRight_prefix cutset (strings.trimLeft cutset s)) as [q Hq].
    apply cut_app_None with (t := q). fold t in Hq. rewrite <- Hq.
    apply trimLeft_done; exact Hne. }
  rewrite Hl. apply trimRight_fixed, Hne.
Qed.

Lemma spaces_nonempty : nonempty strings.spaces.
Proof. repeat constructor; discriminate. Qed.

Lemma TrimSpace_idempotent s :
  strings.TrimSpace (strings.TrimSpace s) = strings.TrimSpace s.
Proof.
  unfold strings.TrimSpace.
  rewrite list_ascii_of_string_of_list_ascii.
  f_equal. apply (trim_idempotent _ (list_ascii_of_string s) spaces_nonempty).
Qed.

(** ** Strings *)

Example TrimSpace_ascii : strings.TrimSpace "  wiki " = "wiki".
Proof. reflexivity. Qed.

Example TrimSpace_inner : strings.TrimSpace " a b " = "a b".
Proof. reflexivity. Qed.

Example TrimSpace_blank : strings.TrimSpace "   " = "".
Proof. reflexivity. Qed.

(** U+00A0 before and U+3000 after. *)
Example TrimSpace_unicode :
  strings.TrimSpace
    (String (ascii_of_nat 194) (String (ascii_of_nat 160)
       (String "g" (String "o"
          (String (ascii_of_nat 227) (String (ascii_of_nat 128)
             (String (ascii_of_nat 128) EmptyString)))))))
  = "go".
Proof. reflexivity. Qed.

(** A continuation byte on its own is not a space. *)
Example TrimSpace_stray :
  strings.TrimSpace (String (ascii_of_nat 128) " ")
  = String (ascii_of_nat 128) EmptyString.
Proof. reflexivity. Qed.

Example Contains_unique :
  strings.Contains uniqueViolation "UNIQUE constraint" = true.
Proof. reflexivity. Qed.

Example Contains_missing : strings.Contains "database is locked" "not found" = false.
Proof. reflexivity. Qed.

Example Parse_wiki :
  example.Parse "https://wiki.example.com/a?b#c"
  = Some (url.mkURL "https" "wiki.example.com").
Proof. reflexivity. Qed.

Example orderByCreatedAtDesc_ties :
  map Slug (orderByCreatedAtDesc
              [mkLink "a" "http://a" 5; mkLink "b" "http://b" 9;
               mkLink "c" "http://c" 5; mkLink "d" "http://d" 7])
  = ["b"; "d"; "a"; "c"].
Proof. reflexivity. Qed.

Lemma substring_all s : substring 0 (String.length s) s = s.
Proof. induction s as [|c s IH]; simpl; [|rewrite IH]; reflexivity. Qed.

Lemma TrimPrefix_slash slug : strings.TrimPrefix (String "/" slug) "/" = slug.
Proof.
  unfold strings.TrimPrefix, strings.HasPrefix. simpl.
  destruct slug; simpl; [reflexivity|].
  f_equal. apply substring_all.
Qed.

(** ** The table *)

Lemma hasSlug_true slug l : hasSlug slug l = true <-> Slug l = slug.
Proof. apply String.eqb_eq. Qed.

Lemma find_absent slug t :
  existsb (hasSlug slug) t = false -> find (hasSlug slug) t = None.
Proof.
  induction t as [|x t IH]; simpl; [reflexivity|].
  destruct (hasSlug slug x); simpl; [discriminate | exact IH].
Qed.

Lemma find_appended slug t l :
  existsb (hasSlug slug) t = false ->
  Slug l = slug ->
  find (hasSlug slug) (t ++ [l]) = Some l.
Proof.
  intros Ht Hl. induction t as [|x t IH]; simpl in *.
  - apply hasSlug_true in Hl. rewrite Hl. reflexivity.
  - destruct (hasSlug slug x); [discriminate | apply IH, Ht].
Qed.

Lemma existsb_deleted slug t :
  existsb (hasSlug slug) (filter (fun l => negb (hasSlug slug l)) t) = false.
Proof.
  induction t as [|x t IH]; simpl; [reflexivity|].
  destruct (hasSlug slug x) eqn:Hx; simpl; [exact IH|].
  rewrite Hx. exact IH.
Qed.

Lemma filter_absent slug t :
  existsb (hasSlug slug) t = false -> filter (hasSlug slug) t = [].
Proof.
  induction t as [|x t IH]; simpl; [reflexivity|].
  destruct (hasSlug slug x); simpl; [discriminate | exact IH].
Qed.

Lemma filter_present slug t :
  existsb (hasSlug slug) t = true -> filter (hasSlug slug) t <> [].
Proof.
  induction t as [|x t IH]; simpl; [discriminate|].
  destruct (hasSlug slug x); simpl; [discriminate | exact IH].
Qed.

Lemma filter_keeps_absent slug t :
  existsb (hasSlug slug) t = false ->
  filter (fun l => negb (hasSlug slug l)) t = t.
Proof.
  induction t as [|x t IH]; simpl; [reflexivity|].
  destruct (hasSlug slug x); simpl; [discriminate|].
  intros H. rewrite (IH H). reflexivity.
Qed.

(** ** [ORDER BY created_at DESC] *)

Lemma insertDesc_perm l t : Permutation (l :: t) (insertDesc l t).
Proof.
  induction t as [|x t IH]; simpl; [reflexivity|].
  destruct (CreatedAt x <=? CreatedAt l); [reflexivity|].
  rewrite perm_swap. constructor. exact IH.
Qed.

Lemma orderByCreatedAtDesc_perm t : Permutation t (orderByCreatedAtDesc t).
Proof.
  induction t as [|l t IH]; simpl; [constructor|].
  rewrite <- insertDesc_perm. constructor. exact IH.
Qed.

Lemma insertDesc_sorted l t :
  StronglySorted newerOrSame t -> StronglySorted newerOrSame (insertDesc l t).
Proof.
  induction 1 as [|x t Hs IH Hx]; simpl.
  - repeat constructor.
  - destruct (CreatedAt x <=? CreatedAt l) eqn:Hlt.
    + apply Z.leb_le in Hlt. constructor; [constructor; assumption|].
      constructor; [unfold newerOrSame; lia|].
      eapply Forall_impl; [|exact Hx].
      unfold newerOrSame; intros y Hy; lia.
    + apply Z.leb_gt in Hlt. constructor; [exact IH|].
      eapply Permutation_Forall; [apply insertDesc_perm|].
      constructor; [unfold newerOrSame; lia | exact Hx].
Qed.

Lemma orderByCreatedAtDesc_sorted t :
  StronglySorted newerOrSame (orderByCreatedAtDesc t).
Proof.
  induction t as [|l t IH]; simpl; [constructor | apply insertDesc_sorted, IH].
Qed.

(** ** The handlers *)

Section Properties.

Variable url_Parse : string -> option url.URL.

Lemma isValidURL_true u :
  isValidURL url_Parse (strings.TrimSpace u) = true <-> spec_validURL url_Parse u.
Proof.
  unfold isValidURL, spec_validURL, strings.HasPrefix.
  destruct (String.prefix "http://" (strings.TrimSpace u)) eqn:H1;
  destruct (String.prefix "https://" (strings.TrimSpace u)) eqn:H2; simpl;
  destruct (url_Parse (strings.TrimSpace u)) as [parsed|] eqn:Hp;
  try (split; [discriminate | intros [_ (q & Hq & _)]; discriminate]);
  try (split; [discriminate | intros [[H|H] _]; discriminate]).
  all: rewrite andb_true_iff, !negb_true_iff, !String.eqb_neq.
  all: split;
    [ intros [Hs Hh]; split; [auto | exists parsed; auto]
    | intros [_ (q & [= <-] & Hs & Hh)]; auto ].
Qed.

Lemma isValidURL_false u :
  isValidURL url_Parse (strings.TrimSpace u) = false <-> spec_invalidURL url_Parse u.
Proof.
  unfold isValidURL, spec_invalidURL, strings.HasPrefix.
  destruct (String.prefix "http://" (strings.TrimSpace u)) eqn:H1;
  destruct (String.prefix "https://" (strings.TrimSpace u)) eqn:H2; simpl;
  destruct (url_Parse (strings.TrimSpace u)) as [parsed|] eqn:Hp;
  try (split; [auto | reflexivity]; fail).
  all: rewrite andb_false_iff, !negb_false_iff, !String.eqb_eq.
  all: split;
    [ intros H; right; right; exists parsed; auto
    | intros [[? ?]|[?|(q & [= <-] & H)]]; try discriminate; exact H ].
Qed.

Lemma isValidURL_nonempty u : isValidURL url_Parse u = true -> u <> "".
Proof.
  unfold isValidURL, strings.HasPrefix. intros H ->.
  simpl in H. discriminate.
Qed.

Lemma getLink_absent db slug :
  fault db = None -> stored db slug = false ->
  getLink db slug = Err (errorString "link not found").
Proof.
  intros Hf Hs. unfold getLink, queryRow. rewrite Hf.
  rewrite (find_absent _ _ Hs). reflexivity.
Qed.

Lemma getLink_failing db slug text :
  fault db = Some text -> getLink db slug = Err (errorString text).
Proof. intros Hf. unfold getLink, queryRow. rewrite Hf. reflexivity. Qed.

(** What [handleAdminAdd] does with a POST whose body decoded and whose
    slug and url pass validation: the answer is that of the insert. *)
Lemma handleAdminAdd_validated now db r req :
  Method r = MethodPost -> Body r = Some req ->
  spec_validSlug (add_Slug req) ->
  isValidURL url_Parse (strings.TrimSpace (add_URL req)) = true ->
  handleAdminAdd url_Parse now db r =
    match addLink now db (strings.TrimSpace (add_Slug req))
                  (strings.TrimSpace (add_URL req)) with
    | (db', Some err) =>
        if strings.Contains (Error err) "UNIQUE constraint"
        then (db', http_Error "Slug already exists" StatusConflict)
        else (db', http_Error "Internal server error" StatusInternalServerError)
    | (db', None) =>
        (db', writeJSON StatusCreated
                [("status", "created");
                 ("slug", strings.TrimSpace (add_Slug req));
                 ("url", strings.TrimSpace (add_URL req))])
    end.
Proof.
  intros Hm Hb [Hs1 Hs2] Hu. unfold handleAdminAdd.
  rewrite Hm, Hb. simpl.
  apply String.eqb_neq in Hs1, Hs2. rewrite Hs1, Hs2, Hu. reflexivity.
Qed.

(** A request answered 201 passed every check, and its row was appended. *)
Lemma handleAdminAdd_created now db r :
  StatusCode (snd (handleAdminAdd url_Parse now db r)) = StatusCreated ->
  exists req,
    Method r = MethodPost /\ Body r = Some req
    /\ spec_validSlug (add_Slug req)
    /\ isValidURL url_Parse (strings.TrimSpace (add_URL req)) = true
    /\ fault db = None
    /\ stored db (strings.TrimSpace (add_Slug req)) = false
    /\ fst (handleAdminAdd url_Parse now db r) =
         online (rows db ++ [mkLink (strings.TrimSpace (add_Slug req))
                                    (strings.TrimSpace (add_URL req)) now]).
Proof.
  unfold handleAdminAdd, addLink, execInsert, stored.
  destruct (String.eqb (Method r) MethodPost) eqn:Hm; simpl; [|discriminate].
  destruct (Body r) as [req|]; [|discriminate].
  destruct (String.eqb (strings.TrimSpace (add_Slug req)) "") eqn:H1;
    simpl; [discriminate|].
  destruct (String.eqb (strings.TrimSpace (add_Slug req)) "admin") eqn:H2;
    simpl; [discriminate|].
  destruct (isValidURL url_Parse (strings.TrimSpace (add_URL req))) eqn:Hu;
    simpl; [|discriminate].
  destruct (fault db) eqn:Hf.
  { simpl. destruct (strings.Contains _ _); discriminate. }
  destruct (existsb _ (rows db)) eqn:He; simpl; [discriminate|].
  intros _. exists req. apply String.eqb_eq in Hm.
  apply String.eqb_neq in H1, H2. unfold spec_validSlug. auto 10.
Qed.

(** Whatever the request, [handleAdminAdd] leaves the table alone or appends
    one row that passed validation. *)
Lemma handleAdminAdd_rows now db r :
  rows (fst (handleAdminAdd url_Parse now db r)) = rows db
  \/ exists l, rows (fst (handleAdminAdd url_Parse now db r)) = rows db ++ [l]
       /\ wellFormed l.
Proof.
  unfold handleAdminAdd, addLink, execInsert.
  destruct (negb (String.eqb (Method r) MethodPost)); [auto|].
  destruct (Body r) as [req|]; [|auto].
  destruct (String.eqb (strings.TrimSpace (add_Slug req)) "") eqn:H1;
    simpl; [auto|].
  destruct (String.eqb (strings.TrimSpace (add_Slug req)) "admin") eqn:H2;
    simpl; [auto|].
  destruct (isValidURL url_Parse (strings.TrimSpace (add_URL req))) eqn:Hu;
    simpl; [|auto].
  destruct (fault db).
  { simpl. destruct (strings.Contains _ _); auto. }
  destruct (existsb _ (rows db)); simpl; [auto|].
  right. eexists; split; [reflexivity|].
  apply String.eqb_neq in H1, H2. apply isValidURL_nonempty in Hu.
  unfold wellFormed; simpl. auto using TrimSpace_idempotent.
Qed.

(** What [handleAdminRemove] does with a POST whose body decoded and whose
    slug passes validation: the answer is that of the delete. *)
Lemma handleAdminRemove_validated db r req :
  Method r = MethodPost -> Body r = Some req ->
  spec_validSlug (remove_Slug req) ->
  handleAdminRemove db r =
    match removeLink db (strings.TrimSpace (remove_Slug req)) with
    | (db', Some err) =>
        if strings.Contains (Error err) "not found"
        then (db', http_Error "Slug not found" StatusNotFound)
        else (db', http_Error "Internal server error" StatusInternalServerError)
    | (db', None) =>
        (db', writeJSON StatusOK
                [("status", "removed");
                 ("slug", strings.TrimSpace (remove_Slug req))])
    end.
Proof.
  intros Hm Hb [Hs1 Hs2]. unfold handleAdminRemove.
  rewrite Hm, Hb. simpl.
  apply String.eqb_neq in Hs1, Hs2. rewrite Hs1, Hs2. reflexivity.
Qed.

(** A request answered 200 passed every check, and the rows of its slug are
    gone. *)
Lemma handleAdminRemove_removed db r :
  StatusCode (snd (handleAdminRemove db r)) = StatusOK ->
  exists req,
    Method r = MethodPost /\ Body r = Some req
    /\ spec_validSlug (remove_Slug req)
    /\ fault db = None
    /\ stored db (strings.TrimSpace (remove_Slug req)) = true
    /\ fst (handleAdminRemove db r) =
         online (filter (fun l => negb (hasSlug (strings.TrimSpace (remove_Slug req)) l))
                        (rows db)).
Proof.
  unfold handleAdminRemove, removeLink, execDelete, stored.
  destruct (String.eqb (Method r) MethodPost) eqn:Hm; simpl; [|discriminate].
  destruct (Body r) as [req|]; [|discriminate].
  destruct (String.eqb (strings.TrimSpace (remove_Slug req)) "") eqn:H1;
    simpl; [discriminate|].
  destruct (String.eqb (strings.TrimSpace (remove_Slug req)) "admin") eqn:H2;
    simpl; [discriminate|].
  destruct (fault db) eqn:Hf.
  { simpl. destruct (strings.Contains _ _); discriminate. }
  destruct (existsb (hasSlug (strings.TrimSpace (remove_Slug req))) (rows db))
    eqn:He.
  - pose proof (filter_present _ _ He) as Hne.
    destruct (filter (hasSlug _) (rows db)) eqn:Hfl; [congruence|].
    simpl length. rewrite Nat2Z.inj_succ.
    destruct (Z.succ _ =? 0) eqn:Hz; [apply Z.eqb_eq in Hz; lia|].
    intros _. exists req. apply String.eqb_eq in Hm.
    apply String.eqb_neq in H1, H2. unfold spec_validSlug. auto 10.
  - rewrite (filter_absent _ _ He). simpl. discriminate.
Qed.

Lemma handleAdminRemove_rows db r :
  exists keep, rows (fst (handleAdminRemove db r)) = filter keep (rows db).
Proof.
  unfold handleAdminRemove, removeLink, execDelete.
  assert (Hsame : exists keep, rows db = filter keep (rows db)).
  { exists (fun _ => true). clear. induction (rows db); simpl; congruence. }
  destruct (negb (String.eqb (Method r) MethodPost)); [exact Hsame|].
  destruct (Body r) as [req|]; [|exact Hsame].
  destruct (_ || _); [exact Hsame|].
  destruct (fault db).
  { simpl. destruct (strings.Contains _ _); exact Hsame. }
  destruct (_ =? 0); simpl; eexists; reflexivity.
Qed.

(** [basicAuth] either answers 401 itself or hands the request over. *)
Lemma basicAuth_cases B cfg (next : Handler B) db r :
  basicAuth cfg next db r = (db, http_Error "Unauthorized" StatusUnauthorized)
  \/ basicAuth cfg next db r = next db r.
Proof.
  unfold basicAuth.
  destruct (_ || _); [auto|].
  destruct (BasicAuth r) as [[user pass]|]; [|auto].
  destruct (_ || _); auto.
Qed.

Lemma handleRoot_slug B db (r : Request B) slug :
  Path r = String "/" slug -> slug <> "" ->
  handleRoot db r =
    match getLink db slug with
    | Err _ => (db, http_NotFound)
    | Ok link => (db, http_Redirect (URL link) StatusFound)
    end.
Proof.
  intros Hp Hs. unfold handleRoot. rewrite Hp, TrimPrefix_slash.
  apply String.eqb_neq in Hs. rewrite Hs. reflexivity.
Qed.

Lemma handleRoot_reads B db (r : Request B) : fst (handleRoot db r) = db.
Proof.
  unfold handleRoot, handleListLinks.
  destruct (String.eqb _ ""); [destruct (getAllLinks db) | destruct (getLink db _)];
    reflexivity.
Qed.

Lemma getLink_appended t slug u now :
  existsb (hasSlug slug) t = false ->
  getLink (online (t ++ [mkLink slug u now])) slug = Ok (mkLink slug u now).
Proof.
  intros Hs. unfold getLink, queryRow. simpl.
  rewrite (find_appended slug t (mkLink slug u now) Hs); reflexivity.
Qed.

Lemma TrimSpace_nonempty s : strings.TrimSpace s <> "" -> s <> "".
Proof. intros H ->. apply H. reflexivity. Qed.

(** Every row of a reachable store is well formed. *)
Lemma reachable_wellFormed cfg db :
  reachable url_Parse cfg db -> Forall wellFormed (rows db).
Proof.
  induction 1 as [|db now r _ IH|db r _ IH|db r _ IH|db f _ IH].
  - constructor.
  - unfold adminAdd.
    destruct (basicAuth_cases _ cfg (handleAdminAdd url_Parse now) db r) as [-> | ->];
      [exact IH|].
    destruct (handleAdminAdd_rows now db r) as [-> | (l & -> & Hl)];
      [exact IH|].
    apply Forall_app; split; [exact IH | constructor; [exact Hl | constructor]].
  - unfold adminRemove.
    destruct (basicAuth_cases _ cfg handleAdminRemove db r) as [-> | ->];
      [exact IH|].
    destruct (handleAdminRemove_rows db r) as [keep ->].
    rewrite Forall_forall in *. intros l Hl. apply IH.
    apply filter_In in Hl. tauto.
  - rewrite handleRoot_reads. exact IH.
  - exact IH.
Qed.

(** A validated add on a working store with no entry for the slug appends
    the row and is answered 201. *)
Lemma handleAdminAdd_stores now db r req :
  Method r = MethodPost -> Body r = Some req ->
  spec_validSlug (add_Slug req) ->
  spec_validURL url_Parse (add_URL req) ->
  fault db = None ->
  stored db (strings.TrimSpace (add_Slug req)) = false ->
  handleAdminAdd url_Parse now db r =
    (online (rows db ++ [mkLink (strings.TrimSpace (add_Slug req))
                                (strings.TrimSpace (add_URL req)) now]),
     writeJSON StatusCreated
       [("status", "created");
        ("slug", strings.TrimSpace (add_Slug req));
        ("url", strings.TrimSpace (add_URL req))]).
Proof.
  intros Hm Hb Hs Hu Hf Hn. apply isValidURL_true in Hu.
  rewrite (handleAdminAdd_validated now db r req Hm Hb Hs Hu).
  unfold addLink, execInsert. unfold stored in Hn. rewrite Hf, Hn.
  reflexivity.
Qed.

(** A validated add on a working store that has an entry for the slug is
    answered 409 and writes nothing. *)
Lemma handleAdminAdd_conflict now db r req :
  Method r = MethodPost -> Body r = Some req ->
  spec_validSlug (add_Slug req) ->
  spec_validURL url_Parse (add_URL req) ->
  fault db = None ->
  stored db (strings.TrimSpace (add_Slug req)) = true ->
  handleAdminAdd url_Parse now db r =
    (db, http_Error "Slug already exists" StatusConflict).
Proof.
  intros Hm Hb Hs Hu Hf Hn. apply isValidURL_true in Hu.
  rewrite (handleAdminAdd_validated now db r req Hm Hb Hs Hu).
  unfold addLink, execInsert. unfold stored in Hn. rewrite Hf, Hn.
  reflexivity.
Qed.

Lemma stored_appended t slug u now :
  stored (online (t ++ [mkLink slug u now])) slug = true.
Proof.
  unfold stored. simpl. rewrite existsb_app. simpl.
  unfold hasSlug at 2. simpl. rewrite String.eqb_refl, orb_true_r.
  reflexivity.
Qed.

(** ** Properties of the service *)

(** C1 (as amended). A request to add [(slug, url)] that passes validation,
    on a working store with no entry for the trimmed slug, is answered 201;
    resolving the trimmed slug afterwards returns the link whose url is the
    trimmed url, and [GET /<trimmed slug>] redirects there. *)
Theorem add_then_resolve now db r req :
  Method r = MethodPost -> Body r = Some req ->
  spec_validSlug (add_Slug req) ->
  spec_validURL url_Parse (add_URL req) ->
  fault db = None ->
  stored db (strings.TrimSpace (add_Slug req)) = false ->
  let slug := strings.TrimSpace (add_Slug req) in
  let url := strings.TrimSpace (add_URL req) in
  let db' := fst (handleAdminAdd url_Parse now db r) in
  StatusCode (snd (handleAdminAdd url_Parse now db r)) = StatusCreated
  /\ getLink db' slug = Ok (mkLink slug url now)
  /\ forall q : Request unit,
       Path q = String "/" slug ->
       handleRoot db' q = (db', http_Redirect url StatusFound).
Proof.
  intros Hm Hb Hs Hu Hf Hn slug url db'. subst db'.
  rewrite (handleAdminAdd_stores now db r req Hm Hb Hs Hu Hf Hn). simpl.
  fold slug url. unfold stored in Hn.
  pose proof (getLink_appended (rows db) slug url now Hn) as Hg.
  split; [reflexivity | split; [exact Hg|]].
  intros q Hq. rewrite (handleRoot_slug _ _ q slug Hq (proj1 Hs)), Hg.
  reflexivity.
Qed.

(** C2. A request to add whose trimmed slug is empty or ["admin"], or whose
    trimmed url lacks the prefix or does not parse to a scheme and a host, is
    answered 400 whatever the store, which is returned as it was; so are
    the slugs [""] and ["admin"] and the urls ["ftp://x.com"] and
    ["not a url"]. *)
Theorem add_rejects_invalid r req :
  Method r = MethodPost -> Body r = Some req ->
  let rejected :=
    exists text, forall now db,
      handleAdminAdd url_Parse now db r = (db, http_Error text StatusBadRequest) in
  (strings.TrimSpace (add_Slug req) = ""
   \/ strings.TrimSpace (add_Slug req) = "admin"
   \/ spec_invalidURL url_Parse (add_URL req) -> rejected)
  /\ (add_Slug req = "" \/ add_Slug req = "admin"
      \/ add_URL req = "ftp://x.com" \/ add_URL req = "not a url" -> rejected).
Proof.
  intros Hm Hb rejected.
  assert (Hgen : strings.TrimSpace (add_Slug req) = ""
                 \/ strings.TrimSpace (add_Slug req) = "admin"
                 \/ isValidURL url_Parse (strings.TrimSpace (add_URL req)) = false
                 -> rejected).
  { intros H. unfold rejected, handleAdminAdd. rewrite Hm, Hb. simpl.
    destruct (String.eqb (strings.TrimSpace (add_Slug req)) "") eqn:H1;
      simpl; [eexists; reflexivity|].
    destruct (String.eqb (strings.TrimSpace (add_Slug req)) "admin") eqn:H2;
      simpl; [eexists; reflexivity|].
    apply String.eqb_neq in H1, H2.
    destruct H as [H|[H|H]]; try contradiction.
    rewrite H. simpl. eexists; reflexivity. }
  split.
  - intros [H|[H|H]]; apply Hgen; auto.
    right; right. apply isValidURL_false, H.
  - intros [H|[H|[H|H]]]; apply Hgen; rewrite H; auto.
Qed.

(** C3. After an add of [(slug, u1)] was answered 201, an add of
    [(slug, u2)] with a valid [u2] is answered 409 and returns the store as
    it was: the url stored for the slug is still the first one. *)
Theorem second_add_conflicts now1 now2 db r1 r2 slug u1 u2 :
  Body r1 = Some (mkAddLinkRequest slug u1) ->
  Method r2 = MethodPost -> Body r2 = Some (mkAddLinkRequest slug u2) ->
  spec_validURL url_Parse u2 ->
  StatusCode (snd (handleAdminAdd url_Parse now1 db r1)) = StatusCreated ->
  let db1 := fst (handleAdminAdd url_Parse now1 db r1) in
  let db2 := fst (handleAdminAdd url_Parse now2 db1 r2) in
  handleAdminAdd url_Parse now2 db1 r2
    = (db1, http_Error "Slug already exists" StatusConflict)
  /\ db2 = db1
  /\ getLink db2 (strings.TrimSpace slug)
     = Ok (mkLink (strings.TrimSpace slug) (strings.TrimSpace u1) now1).
Proof.
  intros Hb1 Hm2 Hb2 Hu2 H201 db1 db2.
  destruct (handleAdminAdd_created now1 db r1 H201)
    as (req & _ & Hb & Hs & _ & _ & Hn & Hdb).
  rewrite Hb1 in Hb. injection Hb as <-. simpl in *.
  assert (Hg : getLink db1 (strings.TrimSpace slug)
               = Ok (mkLink (strings.TrimSpace slug) (strings.TrimSpace u1) now1)).
  { unfold db1. rewrite Hdb. apply getLink_appended, Hn. }
  assert (H409 : handleAdminAdd url_Parse now2 db1 r2
                 = (db1, http_Error "Slug already exists" StatusConflict)).
  { apply (handleAdminAdd_conflict now2 db1 r2 _ Hm2 Hb2 Hs Hu2);
      unfold db1; rewrite Hdb; [reflexivity | apply stored_appended]. }
  assert (Hdb2 : db2 = db1) by (unfold db2; rewrite H409; reflexivity).
  split; [exact H409 | split; [exact Hdb2 | rewrite Hdb2; exact Hg]].
Qed.

(** C4. With a user name and a password configured, a request whose
    credentials are absent or not the configured pair is answered 401 and
    the store is returned as it was, whatever the wrapped handler is: the
    handler has no part in the answer. *)
Theorem auth_rejects B cfg (next : Handler B) db r :
  adminUser cfg <> "" -> adminPass cfg <> "" ->
  spec_badCredentials cfg r ->
  basicAuth cfg next db r = (db, http_Error "Unauthorized" StatusUnauthorized)
  /\ forall next' : Handler B, basicAuth cfg next' db r = basicAuth cfg next db r.
Proof using.
  intros Hu Hp Hbad.
  assert (H : forall h : Handler B,
             basicAuth cfg h db r
             = (db, http_Error "Unauthorized" StatusUnauthorized)).
  { intros h. unfold basicAuth.
    apply String.eqb_neq in Hu, Hp. rewrite Hu, Hp. simpl.
    destruct Hbad as [-> | (user & pass & -> & Hne)]; [reflexivity|].
    destruct (String.eqb user (adminUser cfg)) eqn:E1;
    destruct (String.eqb pass (adminPass cfg)) eqn:E2; simpl; try reflexivity.
    apply String.eqb_eq in E1, E2. exfalso. apply Hne. split; assumption. }
  split; [apply H | intros next'; rewrite !H; reflexivity].
Qed.

(** C5. With the user name or the password unconfigured, [basicAuth] hands
    every request to the wrapped handler; so a request to add without
    credentials that passes validation, on a working store with no entry
    for its slug, is answered 201 and the link is stored. *)
Theorem auth_disabled cfg now db r req :
  adminUser cfg = "" \/ adminPass cfg = "" ->
  (forall B (next : Handler B) db0 r0, basicAuth cfg next db0 r0 = next db0 r0)
  /\ (BasicAuth r = None ->
      Method r = MethodPost -> Body r = Some req ->
      spec_validSlug (add_Slug req) ->
      spec_validURL url_Parse (add_URL req) ->
      fault db = None ->
      stored db (strings.TrimSpace (add_Slug req)) = false ->
      StatusCode (snd (adminAdd url_Parse cfg now db r)) = StatusCreated
      /\ getLink (fst (adminAdd url_Parse cfg now db r))
                 (strings.TrimSpace (add_Slug req))
         = Ok (mkLink (strings.TrimSpace (add_Slug req))
                      (strings.TrimSpace (add_URL req)) now)).
Proof.
  intros Hcfg.
  assert (Hpass : forall B (next : Handler B) db0 r0,
             basicAuth cfg next db0 r0 = next db0 r0).
  { intros B next db0 r0. unfold basicAuth.
    destruct Hcfg as [-> | ->]; simpl; [|rewrite orb_true_r]; reflexivity. }
  split; [exact Hpass|].
  intros _ Hm Hb Hs Hu Hf Hn. unfold adminAdd. rewrite Hpass.
  rewrite (handleAdminAdd_stores now db r req Hm Hb Hs Hu Hf Hn). simpl.
  split; [reflexivity | apply getLink_appended, Hn].
Qed.

(** C6 (as amended). In a reachable store, after an add of [slug] was
    answered 201 and a remove of [slug] was answered 200, resolving [slug]
    (as given, and as trimmed) reports that the link is not found and
    [GET /<slug>] is answered 404. And a remove whose trimmed slug passes
    validation and has no entry in a working store is answered 404 and
    returns the store as it was. *)
Theorem add_remove_resolve :
  (forall cfg now db r1 r2 slug u,
     reachable url_Parse cfg db ->
     Body r1 = Some (mkAddLinkRequest slug u) ->
     Body r2 = Some (mkRemoveLinkRequest slug) ->
     StatusCode (snd (handleAdminAdd url_Parse now db r1)) = StatusCreated ->
     let db1 := fst (handleAdminAdd url_Parse now db r1) in
     StatusCode (snd (handleAdminRemove db1 r2)) = StatusOK ->
     let db2 := fst (handleAdminRemove db1 r2) in
     getLink db2 slug = Err (errorString "link not found")
     /\ getLink db2 (strings.TrimSpace slug) = Err (errorString "link not found")
     /\ forall q : Request unit,
          Path q = String "/" slug -> handleRoot db2 q = (db2, http_NotFound))
  /\ (forall db r req,
        Method r = MethodPost -> Body r = Some req ->
        spec_validSlug (remove_Slug req) ->
        fault db = None ->
        stored db (strings.TrimSpace (remove_Slug req)) = false ->
        handleAdminRemove db r = (db, http_Error "Slug not found" StatusNotFound)).
Proof.
  split.
  - intros cfg now db r1 r2 slug u Hreach Hb1 Hb2 H201 db1 H200 db2.
    destruct (handleAdminAdd_created now db r1 H201)
      as (req1 & _ & Hb & Hs & Hv & _ & _ & Hdb1).
    rewrite Hb1 in Hb. injection Hb as <-. simpl in *.
    apply isValidURL_nonempty in Hv.
    destruct (handleAdminRemove_removed db1 r2 H200)
      as (req2 & _ & Hb & _ & _ & _ & Hdb2).
    rewrite Hb2 in Hb. injection Hb as <-. simpl in *.
    fold db1 in Hdb1. fold db2 in Hdb2.
    set (t := strings.TrimSpace slug) in *.
    assert (Hwf : Forall wellFormed (rows db1)).
    { rewrite Hdb1. simpl. apply Forall_app. split.
      - eapply reachable_wellFormed, Hreach.
      - constructor; [|constructor]. destruct Hs as [Hs1 Hs2].
        unfold wellFormed; simpl. repeat split; try assumption.
        apply TrimSpace_idempotent. }
    assert (Ht : stored db2 t = false).
    { rewrite Hdb2. apply existsb_deleted. }
    assert (Hraw : stored db2 slug = false).
    { destruct (stored db2 slug) eqn:E; [|reflexivity].
      unfold stored in E. apply existsb_exists in E as (l & Hin & Hl).
      apply hasSlug_true in Hl.
      assert (Hin1 : In l (rows db1)).
      { rewrite Hdb2 in Hin. simpl in Hin. apply filter_In in Hin. tauto. }
      rewrite Forall_forall in Hwf. destruct (Hwf l Hin1) as (_ & _ & _ & Htrim).
      rewrite Hl in Htrim. fold t in Htrim.
      unfold stored in Ht. rewrite <- not_true_iff_false in Ht.
      exfalso. apply Ht. apply existsb_exists. exists l. split; [exact Hin|].
      apply hasSlug_true. congruence. }
    assert (Hf : fault db2 = None) by (rewrite Hdb2; reflexivity).
    pose proof (getLink_absent db2 slug Hf Hraw) as Hg.
    split; [exact Hg | split; [apply getLink_absent; assumption|]].
    intros q Hq.
    rewrite (handleRoot_slug _ _ q slug Hq (TrimSpace_nonempty _ (proj1 Hs))), Hg.
    reflexivity.
  - intros db r req Hm Hb Hs Hf Hn.
    rewrite (handleAdminRemove_validated db r req Hm Hb Hs).
    unfold removeLink, execDelete. unfold stored in Hn. rewrite Hf.
    rewrite (filter_absent _ _ Hn), (filter_keeps_absent _ _ Hn). simpl.
    destruct db as [t f]. simpl in Hf. subst f. reflexivity.
Qed.

(** C7. On a working store the listing query returns the rows of the table,
    each once, every link at least as new as the links after it; on the
    empty table it returns the empty sequence and no error, and the listing
    page is written with no links. *)
Theorem list_newest_first t :
  (exists links,
     getAllLinks (online t) = Ok links
     /\ Permutation t links
     /\ StronglySorted newerOrSame links)
  /\ getAllLinks emptyDB = Ok []
  /\ forall r : Request unit,
       handleListLinks emptyDB r = (emptyDB, writeHTML [] 0).
Proof using.
  split; [|split; reflexivity].
  exists (orderByCreatedAtDesc t). split; [reflexivity|].
  split; [apply orderByCreatedAtDesc_perm | apply orderByCreatedAtDesc_sorted].
Qed.

(** C8. No link of a reachable store has an empty slug, an empty url or the
    slug ["admin"]. *)
Theorem stored_links_valid cfg db l :
  reachable url_Parse cfg db ->
  In l (rows db) ->
  Slug l <> "" /\ URL l <> "" /\ Slug l <> "admin".
Proof.
  intros Hreach Hin.
  pose proof (reachable_wellFormed cfg db Hreach) as Hwf.
  rewrite Forall_forall in Hwf. destruct (Hwf l Hin) as (H1 & H2 & H3 & _).
  auto.
Qed.

(** C9 (as amended). A request to an admin route whose method is not POST is
    answered 405 when [basicAuth] lets it through (a credential is
    unconfigured, or the request carries the configured pair), and 401 when
    credentials are configured and those of the request are absent or
    wrong. The store is returned as it was. *)
Theorem admin_routes_non_post cfg now db ra rr :
  Method ra <> MethodPost -> Method rr <> MethodPost ->
  let e405 := http_Error "Method not allowed" StatusMethodNotAllowed in
  let e401 := http_Error "Unauthorized" StatusUnauthorized in
  (spec_admitted cfg ra -> adminAdd url_Parse cfg now db ra = (db, e405))
  /\ (spec_refused cfg ra -> adminAdd url_Parse cfg now db ra = (db, e401))
  /\ (spec_admitted cfg rr -> adminRemove cfg db rr = (db, e405))
  /\ (spec_refused cfg rr -> adminRemove cfg db rr = (db, e401)).
Proof.
  intros Ha Hr e405 e401.
  apply String.eqb_neq in Ha, Hr.
  assert (Hadd : handleAdminAdd url_Parse now db ra = (db, e405))
    by (unfold handleAdminAdd; rewrite Ha; reflexivity).
  assert (Hrem : handleAdminRemove db rr = (db, e405))
    by (unfold handleAdminRemove; rewrite Hr; reflexivity).
  assert (Hpass : forall B (next : Handler B) r,
             spec_admitted cfg r -> basicAuth cfg next db r = next db r).
  { intros B next r [H|[H|H]]; unfold basicAuth.
    - rewrite H. reflexivity.
    - rewrite H, orb_true_r. reflexivity.
    - rewrite H, !String.eqb_refl. simpl. destruct (_ || _); reflexivity. }
  assert (Hstop : forall B (next : Handler B) r,
             spec_refused cfg r -> basicAuth cfg next db r = (db, e401)).
  { intros B next r (Hu & Hp & Hbad). unfold basicAuth.
    apply String.eqb_neq in Hu, Hp. rewrite Hu, Hp. simpl.
    destruct Hbad as [-> | (user & pass & -> & Hne)]; [reflexivity|].
    destruct (String.eqb user (adminUser cfg)) eqn:E1;
    destruct (String.eqb pass (adminPass cfg)) eqn:E2; simpl; try reflexivity.
    apply String.eqb_eq in E1, E2. exfalso. apply Hne. split; assumption. }
  unfold adminAdd, adminRemove. repeat split; intros H.
  - rewrite (Hpass _ _ _ H). exact Hadd.
  - apply Hstop, H.
  - rewrite (Hpass _ _ _ H). exact Hrem.
  - apply Hstop, H.
Qed.

(** C10. A request for [/<slug>] is answered 404 whenever the lookup returns
    an error, a failure of the driver included, and is never answered 500. *)
Theorem lookup_error_is_not_found B db (r : Request B) slug :
  Path r = String "/" slug -> slug <> "" ->
  (forall e, getLink db slug = Err e -> handleRoot db r = (db, http_NotFound))
  /\ (forall text, fault db = Some text ->
        getLink db slug = Err (errorString text)
        /\ handleRoot db r = (db, http_NotFound))
  /\ StatusCode http_NotFound = StatusNotFound
  /\ StatusCode (snd (handleRoot db r)) <> StatusInternalServerError.
Proof using.
  intros Hp Hs. rewrite (handleRoot_slug _ db r slug Hp Hs).
  split; [intros e ->; reflexivity|].
  split; [intros text Hf; rewrite (getLink_failing db slug text Hf); auto|].
  split; [reflexivity|].
  destruct (getLink db slug); simpl; discriminate.
Qed.

End Properties.

(** ** Concrete requests *)

Import example.

Lemma wiki_validSlug : spec_validSlug "wiki".
Proof. split; evaluate. Defined.

Lemma wiki_validURL : spec_validURL Parse "https://wiki.example.com".
Proof.
  split; [right; reflexivity|].
  exists (url.mkURL "https" "wiki.example.com").
  split; [reflexivity | split; evaluate].
Defined.

(** C1: adding [wiki] to the empty store and resolving it. *)
Lemma add_then_resolve_witness :
  let r := post "/admin/add" None addWiki in
  let db' := fst (handleAdminAdd Parse 100 emptyDB r) in
  StatusCode (snd (handleAdminAdd Parse 100 emptyDB r)) = StatusCreated
  /\ getLink db' "wiki" = Ok wiki
  /\ forall q : Request unit,
       Path q = "/wiki" ->
       handleRoot db' q = (db', http_Redirect "https://wiki.example.com" StatusFound).
Proof.
  exact (add_then_resolve Parse 100 emptyDB (post "/admin/add" None addWiki)
           addWiki eq_refl eq_refl wiki_validSlug wiki_validURL
           eq_refl eq_refl).
Defined.

(** C1 as stated fails on a slug with a leading space: the request passes
    validation, the store has no entry for the slug, the add is answered
    201, and resolving the slug as it was sent finds nothing. *)
Lemma add_then_resolve_untrimmed :
  let req := mkAddLinkRequest " wiki" "https://wiki.example.com" in
  let r := post "/admin/add" None req in
  let db' := fst (handleAdminAdd Parse 100 emptyDB r) in
  spec_validSlug (add_Slug req)
  /\ spec_validURL Parse (add_URL req)
  /\ stored emptyDB (add_Slug req) = false
  /\ StatusCode (snd (handleAdminAdd Parse 100 emptyDB r)) = StatusCreated
  /\ rows db' = [wiki]
  /\ getLink db' (add_Slug req) = Err (errorString "link not found")
  /\ handleRoot db' (get "/ wiki") = (db', http_NotFound).
Proof.
  split; [split; evaluate|].
  split; [exact wiki_validURL|].
  repeat split.
Qed.

(** C2: a blank slug is turned away, whatever the store. *)
Lemma add_rejects_invalid_witness :
  exists text, forall now db,
    handleAdminAdd Parse now db
      (post "/admin/add" None (mkAddLinkRequest "  " "https://wiki.example.com"))
    = (db, http_Error text StatusBadRequest).
Proof.
  apply (proj1 (add_rejects_invalid Parse
                  (post "/admin/add" None
                        (mkAddLinkRequest "  " "https://wiki.example.com"))
                  (mkAddLinkRequest "  " "https://wiki.example.com")
                  eq_refl eq_refl)).
  left. vm_compute. reflexivity.
Defined.

(** C3: adding [wiki] twice, with another url the second time. *)
Lemma second_add_conflicts_witness :
  let r1 := post "/admin/add" None addWiki in
  let r2 := post "/admin/add" None
                 (mkAddLinkRequest "wiki" "https://wiki.example.com/new") in
  let db1 := fst (handleAdminAdd Parse 100 emptyDB r1) in
  let db2 := fst (handleAdminAdd Parse 200 db1 r2) in
  handleAdminAdd Parse 200 db1 r2
    = (db1, http_Error "Slug already exists" StatusConflict)
  /\ db2 = db1
  /\ getLink db2 "wiki" = Ok wiki.
Proof.
  apply (second_add_conflicts Parse 100 200 emptyDB
           (post "/admin/add" None addWiki)
           (post "/admin/add" None
                 (mkAddLinkRequest "wiki" "https://wiki.example.com/new"))
           "wiki" "https://wiki.example.com" "https://wiki.example.com/new");
    try reflexivity.
  split; [right; reflexivity|].
  exists (url.mkURL "https" "wiki.example.com").
  split; [reflexivity | split; evaluate].
Defined.

(** C4: a wrong password where credentials are configured. *)
Lemma auth_rejects_witness :
  let r := post "/admin/add" (Some ("root", "guess")) addWiki in
  basicAuth cfgGuarded (handleAdminAdd Parse 100) emptyDB r
    = (emptyDB, http_Error "Unauthorized" StatusUnauthorized)
  /\ forall next' : Handler AddLinkRequest,
       basicAuth cfgGuarded next' emptyDB r
       = basicAuth cfgGuarded (handleAdminAdd Parse 100) emptyDB r.
Proof.
  apply (auth_rejects AddLinkRequest cfgGuarded (handleAdminAdd Parse 100)
           emptyDB (post "/admin/add" (Some ("root", "guess")) addWiki)).
  - evaluate.
  - evaluate.
  - right. exists "root", "guess". split; [reflexivity|].
    intros [_ H]. discriminate H.
Defined.

(** C5: adding [wiki] without credentials where none are configured. *)
Lemma auth_disabled_witness :
  (forall B (next : Handler B) db0 r0, basicAuth cfgOpen next db0 r0 = next db0 r0)
  /\ StatusCode (snd (adminAdd Parse cfgOpen 100 emptyDB
                        (post "/admin/add" None addWiki))) = StatusCreated
  /\ getLink (fst (adminAdd Parse cfgOpen 100 emptyDB
                     (post "/admin/add" None addWiki))) "wiki" = Ok wiki.
Proof.
  destruct (auth_disabled Parse cfgOpen 100 emptyDB
              (post "/admin/add" None addWiki) addWiki (or_introl eq_refl))
    as [Hpass Hadd].
  split; [exact Hpass|].
  exact (Hadd eq_refl eq_refl eq_refl wiki_validSlug wiki_validURL
              eq_refl eq_refl).
Defined.

(** C6: adding and removing [wiki] on the empty store, then resolving it;
    and removing [wiki] where it was never added. *)
Lemma add_remove_resolve_witness :
  let r1 := post "/admin/add" None addWiki in
  let r2 := post "/admin/remove" None (mkRemoveLinkRequest "wiki") in
  let db1 := fst (handleAdminAdd Parse 100 emptyDB r1) in
  let db2 := fst (handleAdminRemove db1 r2) in
  (getLink db2 "wiki" = Err (errorString "link not found")
   /\ handleRoot db2 (get "/wiki") = (db2, http_NotFound))
  /\ handleAdminRemove emptyDB r2
     = (emptyDB, http_Error "Slug not found" StatusNotFound).
Proof.
  destruct (add_remove_resolve Parse) as [Hround Habsent].
  split.
  - destruct (Hround cfgOpen 100 emptyDB
                (post "/admin/add" None addWiki)
                (post "/admin/remove" None (mkRemoveLinkRequest "wiki"))
                "wiki" "https://wiki.example.com"
                (reach_init Parse cfgOpen) eq_refl eq_refl eq_refl eq_refl)
      as (Hg & _ & Hroot).
    split; [exact Hg | exact (Hroot (get "/wiki") eq_refl)].
  - exact (Habsent emptyDB
             (post "/admin/remove" None (mkRemoveLinkRequest "wiki"))
             (mkRemoveLinkRequest "wiki")
             eq_refl eq_refl wiki_validSlug eq_refl eq_refl).
Defined.

(** C6 as stated fails where it speaks of any slug with no stored entry:
    the store holding [wiki] (a reachable one) has no entry for the slug
    with a leading space, yet removing that slug is answered 200 and
    deletes [wiki]; and removing ["admin"], never stored, is answered
    400. *)
Lemma remove_absent_slug_not_404 :
  let db := online [wiki] in
  let r := post "/admin/remove" None (mkRemoveLinkRequest " wiki") in
  let r' := post "/admin/remove" None (mkRemoveLinkRequest "admin") in
  reachable Parse cfgOpen db
  /\ stored db " wiki" = false
  /\ handleAdminRemove db r
     = (emptyDB, writeJSON StatusOK [("status", "removed"); ("slug", "wiki")])
  /\ stored emptyDB "admin" = false
  /\ handleAdminRemove emptyDB r'
     = (emptyDB, http_Error "Invalid slug" StatusBadRequest).
Proof.
  split; [|repeat split].
  exact (reach_add Parse cfgOpen emptyDB 100 (post "/admin/add" None addWiki)
           (reach_init Parse cfgOpen)).
Qed.

(** C8: the store after [wiki] was added. *)
Lemma stored_links_valid_witness :
  Slug wiki <> "" /\ URL wiki <> "" /\ Slug wiki <> "admin".
Proof.
  apply (stored_links_valid Parse cfgOpen
           (fst (adminAdd Parse cfgOpen 100 emptyDB
                   (post "/admin/add" None addWiki)))
           wiki).
  - apply reach_add, reach_init.
  - vm_compute. left. reflexivity.
Defined.

(** C9: a GET with the right credentials, and a GET without any. *)
Lemma admin_routes_non_post_witness :
  adminAdd Parse cfgGuarded 100 emptyDB
    (mkRequest "GET" "/admin/add" (Some ("root", "secret")) None)
  = (emptyDB, http_Error "Method not allowed" StatusMethodNotAllowed)
  /\ adminRemove cfgGuarded emptyDB (mkRequest "GET" "/admin/remove" None None)
     = (emptyDB, http_Error "Unauthorized" StatusUnauthorized).
Proof.
  assert (Hget : "GET" <> MethodPost) by discriminate.
  destruct (admin_routes_non_post Parse cfgGuarded 100 emptyDB
              (mkRequest "GET" "/admin/add" (Some ("root", "secret")) None)
              (mkRequest "GET" "/admin/remove" None None) Hget Hget)
    as (H405 & _ & _ & H401).
  split.
  - apply H405. right. right. reflexivity.
  - apply H401. repeat split; try discriminate. left. reflexivity.
Defined.

(** C9 as stated fails where credentials are configured: a GET without
    credentials is answered 401, not 405. *)
Lemma guarded_get_is_401 :
  let r : Request AddLinkRequest := mkRequest "GET" "/admin/add" None None in
  Method r <> MethodPost
  /\ adminAdd Parse cfgGuarded 100 emptyDB r
     = (emptyDB, http_Error "Unauthorized" StatusUnauthorized)
  /\ StatusCode (snd (adminAdd Parse cfgGuarded 100 emptyDB r))
     <> StatusMethodNotAllowed.
Proof. repeat split; evaluate. Qed.

(** C10: looking up [wiki] while the database is locked. *)
Lemma lookup_error_is_not_found_witness :
  let db := mkDB [wiki] (Some "database is locked") in
  (forall e, getLink db "wiki" = Err e ->
             handleRoot db (get "/wiki") = (db, http_NotFound))
  /\ (forall text, fault db = Some text ->
        getLink db "wiki" = Err (errorString text)
        /\ handleRoot db (get "/wiki") = (db, http_NotFound))
  /\ StatusCode http_NotFound = StatusNotFound
  /\ StatusCode (snd (handleRoot db (get "/wiki"))) <> StatusInternalServerError.
Proof.
  apply (lookup_error_is_not_found unit
           (mkDB [wiki] (Some "database is locked")) (get "/wiki") "wiki").
  - reflexivity.
  - discriminate.
Defined.

(** ** More on the table *)

Lemma find_appended_keeps slug t x l :
  find (hasSlug slug) t = Some l -> find (hasSlug slug) (t ++ x) = Some l.
Proof.
  induction t as [|y t IH]; simpl; [discriminate|].
  destruct (hasSlug slug y); [trivial | exact IH].
Qed.

Lemma find_deleted_other slug slug' t :
  slug' <> slug ->
  find (hasSlug slug') (filter (fun l => negb (hasSlug slug l)) t)
  = find (hasSlug slug') t.
Proof.
  intros Hne. induction t as [|y t IH]; simpl; [reflexivity|].
  destruct (hasSlug slug y) eqn:Hy; simpl.
  - destruct (hasSlug slug' y) eqn:Hy'; [|exact IH].
    apply hasSlug_true in Hy, Hy'. congruence.
  - rewrite IH. reflexivity.
Qed.

Lemma slug_absent slug t :
  existsb (hasSlug slug) t = false -> ~ In slug (map Slug t).
Proof.
  intros He Hin. apply in_map_iff in Hin as (l & Hl & Hin).
  rewrite <- not_true_iff_false in He. apply He.
  apply existsb_exists. exists l. split; [exact Hin | apply hasSlug_true, Hl].
Qed.

Lemma NoDup_appended slug u now t :
  NoDup (map Slug t) ->
  existsb (hasSlug slug) t = false ->
  NoDup (map Slug (t ++ [mkLink slug u now])).
Proof.
  intros Hnd He. rewrite map_app. simpl.
  apply NoDup_app; [exact Hnd | repeat constructor; intros [] | ].
  intros s Hs [<- | []]. exact (slug_absent _ _ He Hs).
Qed.

Lemma NoDup_filtered (keep : Link -> bool) t :
  NoDup (map Slug t) -> NoDup (map Slug (filter keep t)).
Proof.
  induction t as [|y t IH]; simpl; [trivial|].
  intros Hnd. inversion Hnd as [|? ? Hy Ht]; subst.
  destruct (keep y); simpl; [|apply IH, Ht].
  constructor; [|apply IH, Ht].
  intros Hin. apply Hy. apply in_map_iff in Hin as (l & Hl & Hin).
  apply in_map_iff. exists l. apply filter_In in Hin. tauto.
Qed.


Lemma delete_unique slug t :
  NoDup (map Slug t) ->
  existsb (hasSlug slug) t = true ->
  (length (filter (fun l => negb (hasSlug slug l)) t) + 1 = length t)%nat.
Proof.
  induction t as [|y t IH]; simpl; [discriminate|].
  intros Hnd He. inversion Hnd as [|? ? Hy Ht]; subst.
  destruct (hasSlug slug y) eqn:E; simpl.
  - apply hasSlug_true in E. subst slug.
    destruct (existsb (hasSlug (Slug y)) t) eqn:Et.
    + exfalso. apply Hy. apply existsb_exists in Et as (l & Hin & Hl).
      apply hasSlug_true in Hl. rewrite <- Hl. apply in_map, Hin.
    + rewrite (filter_keeps_absent _ _ Et). lia.
  - rewrite (IH Ht He). reflexivity.
Qed.

(** ** More on the handlers *)

Section Further.

Variable url_Parse : string -> option url.URL.

(** Only an add answered 201 writes. *)
Lemma handleAdminAdd_unchanged now db r :
  StatusCode (snd (handleAdminAdd url_Parse now db r)) <> StatusCreated ->
  fst (handleAdminAdd url_Parse now db r) = db.
Proof.
  unfold handleAdminAdd, addLink, execInsert.
  destruct (negb (String.eqb (Method r) MethodPost)); [reflexivity|].
  destruct (Body r) as [req|]; [|reflexivity].
  destruct (_ || _); [reflexivity|].
  destruct (negb _); [reflexivity|].
  destruct (fault db).
  { simpl. destruct (strings.Contains _ _); reflexivity. }
  destruct (existsb _ (rows db)); simpl; [reflexivity|].
  intros H. exfalso. apply H. reflexivity.
Qed.

(** Only a remove answered 200 writes. *)
Lemma handleAdminRemove_unchanged db r :
  StatusCode (snd (handleAdminRemove db r)) <> StatusOK ->
  fst (handleAdminRemove db r) = db.
Proof.
  unfold handleAdminRemove, removeLink, execDelete.
  destruct (negb (String.eqb (Method r) MethodPost)); [reflexivity|].
  destruct (Body r) as [req|]; [|reflexivity].
  destruct (_ || _); [reflexivity|].
  destruct (fault db) eqn:Hf.
  { simpl. destruct (strings.Contains _ _); reflexivity. }
  destruct (existsb (hasSlug (strings.TrimSpace (remove_Slug req))) (rows db))
    eqn:He.
  - pose proof (filter_present _ _ He) as Hne.
    destruct (filter (hasSlug _) (rows db)) eqn:Hfl; [congruence|].
    simpl length. rewrite Nat2Z.inj_succ.
    destruct (Z.succ _ =? 0) eqn:Hz; [apply Z.eqb_eq in Hz; lia|].
    intros H. exfalso. apply H. reflexivity.
  - rewrite (filter_absent _ _ He), (filter_keeps_absent _ _ He). simpl.
    intros _. destruct db as [t f]. simpl in *. subst f. reflexivity.
Qed.

(** In a reachable store no slug occurs twice and every url passed
    [isValidURL]. *)
Lemma reachable_unique_validated cfg db :
  reachable url_Parse cfg db ->
  NoDup (map Slug (rows db)) /\ Forall (validated url_Parse) (rows db).
Proof.
  induction 1 as [|db now r _ IH|db r _ IH|db r _ IH|db f _ IH].
  - split; constructor.
  - unfold adminAdd.
    destruct (basicAuth_cases _ cfg (handleAdminAdd url_Parse now) db r)
      as [-> | ->]; [exact IH|].
    destruct (Z.eq_dec (StatusCode (snd (handleAdminAdd url_Parse now db r)))
                       StatusCreated) as [H201|Hnot].
    + destruct (handleAdminAdd_created url_Parse now db r H201)
        as (req & _ & _ & _ & Hv & _ & Hn & ->).
      destruct IH as [Hnd Hval]. simpl. split.
      * apply NoDup_appended; assumption.
      * apply Forall_app. split; [exact Hval|].
        constructor; [exact Hv | constructor].
    + rewrite (handleAdminAdd_unchanged now db r Hnot). exact IH.
  - unfold adminRemove.
    destruct (basicAuth_cases _ cfg handleAdminRemove db r) as [-> | ->];
      [exact IH|].
    destruct (handleAdminRemove_rows db r) as [keep ->].
    destruct IH as [Hnd Hval]. split; [apply NoDup_filtered, Hnd|].
    rewrite Forall_forall in *. intros l Hl. apply Hval.
    apply filter_In in Hl. apply Hl.
  - rewrite handleRoot_reads. exact IH.
  - exact IH.
Qed.

Lemma getLink_found db slug l :
  getLink db slug = Ok l ->
  fault db = None /\ find (hasSlug slug) (rows db) = Some l.
Proof.
  unfold getLink, queryRow. destruct (fault db); [discriminate|].
  destruct (find (hasSlug slug) (rows db)); [|discriminate].
  intros [= ->]. auto.
Qed.

Lemma getLink_find db slug :
  fault db = None ->
  getLink db slug =
    match find (hasSlug slug) (rows db) with
    | Some l => Ok l
    | None => Err (errorString "link not found")
    end.
Proof.
  intros Hf. unfold getLink, queryRow. rewrite Hf.
  destruct (find (hasSlug slug) (rows db)); reflexivity.
Qed.


(** X1. The slugs of a reachable store are pairwise different. *)
Theorem slugs_unique cfg db :
  reachable url_Parse cfg db -> NoDup (map Slug (rows db)).
Proof. intros H. apply (reachable_unique_validated cfg db H). Qed.

(** X2. In a reachable store [handleRoot] redirects with 302 only, and only
    to the url of a stored link that [isValidURL] accepts. *)
Theorem redirects_validated B cfg db (r : Request B) db' u code :
  reachable url_Parse cfg db ->
  handleRoot db r = (db', http_Redirect u code) ->
  code = StatusFound
  /\ isValidURL url_Parse u = true
  /\ exists l, In l (rows db) /\ URL l = u
               /\ Slug l = strings.TrimPrefix (Path r) "/".
Proof.
  intros Hreach. unfold handleRoot, handleListLinks.
  destruct (String.eqb _ "").
  { destruct (getAllLinks db); discriminate. }
  destruct (getLink db _) as [l|e] eqn:Hg; [|discriminate].
  intros [= _ <- <-].
  apply getLink_found in Hg as [_ Hfind].
  apply find_some in Hfind as [Hin Hs]. apply hasSlug_true in Hs.
  destruct (reachable_unique_validated cfg db Hreach) as [_ Hval].
  rewrite Forall_forall in Hval.
  split; [reflexivity | split; [apply (Hval l Hin) | eauto]].
Qed.

(** X3. [handleAdminAdd] returns the store as it was unless it answers 201;
    when it answers 201 it has appended one row, stamped with the clock,
    and the response reports the slug and url of that row. *)
Theorem add_writes_only_on_201 now db r :
  let db' := fst (handleAdminAdd url_Parse now db r) in
  let resp := snd (handleAdminAdd url_Parse now db r) in
  (StatusCode resp <> StatusCreated -> db' = db)
  /\ (StatusCode resp = StatusCreated ->
      exists l,
        rows db' = rows db ++ [l]
        /\ CreatedAt l = now
        /\ resp = writeJSON StatusCreated
                    [("status", "created"); ("slug", Slug l); ("url", URL l)]).
Proof.
  intros db' resp. split; [apply handleAdminAdd_unchanged|].
  intros H201. subst db' resp.
  destruct (handleAdminAdd_created url_Parse now db r H201)
    as (req & Hm & Hb & Hs & Hv & Hf & Hn & Hdb).
  apply isValidURL_true in Hv.
  rewrite (handleAdminAdd_stores url_Parse now db r req Hm Hb Hs Hv Hf Hn).
  simpl. eexists. split; [reflexivity | split; reflexivity].
Qed.

(** X4. No request to [handleAdminAdd] alters a link that resolves: what a
    slug resolved to before, it resolves to afterwards. *)
Theorem add_keeps_links now db r slug l :
  getLink db slug = Ok l ->
  getLink (fst (handleAdminAdd url_Parse now db r)) slug = Ok l.
Proof.
  intros Hg.
  destruct (Z.eq_dec (StatusCode (snd (handleAdminAdd url_Parse now db r)))
                     StatusCreated) as [H201|Hnot].
  - destruct (handleAdminAdd_created url_Parse now db r H201)
      as (req & _ & _ & _ & _ & _ & _ & ->).
    apply getLink_found in Hg as [_ Hfind].
    rewrite getLink_find by reflexivity. simpl.
    rewrite (find_appended_keeps _ _ _ _ Hfind). reflexivity.
  - rewrite (handleAdminAdd_unchanged now db r Hnot). exact Hg.
Qed.

(** X5. A request to remove a slug leaves the lookup of every other slug as
    it was. *)
Theorem remove_keeps_other_links db r req slug :
  Body r = Some req ->
  slug <> strings.TrimSpace (remove_Slug req) ->
  getLink (fst (handleAdminRemove db r)) slug = getLink db slug.
Proof using.
  intros Hb Hne.
  destruct (Z.eq_dec (StatusCode (snd (handleAdminRemove db r))) StatusOK)
    as [H200|Hnot].
  - destruct (handleAdminRemove_removed db r H200)
      as (req' & _ & Hb' & _ & Hf & _ & ->).
    rewrite Hb in Hb'. injection Hb' as <-.
    rewrite !getLink_find by (reflexivity || exact Hf). simpl.
    rewrite (find_deleted_other _ _ _ Hne). reflexivity.
  - rewrite (handleAdminRemove_unchanged db r Hnot). reflexivity.
Qed.

(** X6. [handleAdminRemove] returns the store as it was unless it answers
    200; when it answers 200 on a reachable store, exactly one row is gone
    and the slug no longer resolves. *)
Theorem remove_deletes_one_row cfg db r :
  reachable url_Parse cfg db ->
  let db' := fst (handleAdminRemove db r) in
  let resp := snd (handleAdminRemove db r) in
  (StatusCode resp <> StatusOK -> db' = db)
  /\ (StatusCode resp = StatusOK ->
      (length (rows db') + 1 = length (rows db))%nat
      /\ exists req, Body r = Some req
           /\ stored db' (strings.TrimSpace (remove_Slug req)) = false).
Proof.
  intros Hreach db' resp. split; [apply handleAdminRemove_unchanged|].
  intros H200. subst db' resp.
  destruct (handleAdminRemove_removed db r H200)
    as (req & _ & Hb & _ & _ & Hs & ->).
  destruct (reachable_unique_validated cfg db Hreach) as [Hnd _].
  simpl. split; [apply delete_unique; assumption|].
  exists req. split; [exact Hb | apply existsb_deleted].
Qed.

(** X7. A remove answered 200 cannot be repeated: the same request on the
    store it returned is answered 404 and writes nothing. *)
Theorem second_remove_not_found db r :
  StatusCode (snd (handleAdminRemove db r)) = StatusOK ->
  let db' := fst (handleAdminRemove db r) in
  handleAdminRemove db' r = (db', http_Error "Slug not found" StatusNotFound).
Proof using.
  intros H200 db'. subst db'.
  destruct (handleAdminRemove_removed db r H200)
    as (req & Hm & Hb & Hs & _ & _ & ->).
  rewrite (handleAdminRemove_validated _ r req Hm Hb Hs).
  unfold removeLink, execDelete. simpl.
  pose proof (existsb_deleted (strings.TrimSpace (remove_Slug req)) (rows db))
    as Hgone.
  rewrite (filter_absent _ _ Hgone), (filter_keeps_absent _ _ Hgone).
  reflexivity.
Qed.

(** X8. A url is changed by removing and adding again: after an add of
    [(slug, u1)] answered 201, a remove of [slug] is answered 200, and an
    add of [(slug, u2)] with a valid [u2] is then answered 201 and makes
    the slug resolve to [u2]. *)
Theorem remove_then_add_replaces now1 now3 db r1 r2 r3 slug u1 u2 :
  Body r1 = Some (mkAddLinkRequest slug u1) ->
  StatusCode (snd (handleAdminAdd url_Parse now1 db r1)) = StatusCreated ->
  Method r2 = MethodPost -> Body r2 = Some (mkRemoveLinkRequest slug) ->
  Method r3 = MethodPost -> Body r3 = Some (mkAddLinkRequest slug u2) ->
  spec_validURL url_Parse u2 ->
  let db1 := fst (handleAdminAdd url_Parse now1 db r1) in
  let db2 := fst (handleAdminRemove db1 r2) in
  let db3 := fst (handleAdminAdd url_Parse now3 db2 r3) in
  StatusCode (snd (handleAdminRemove db1 r2)) = StatusOK
  /\ StatusCode (snd (handleAdminAdd url_Parse now3 db2 r3)) = StatusCreated
  /\ getLink db3 (strings.TrimSpace slug)
     = Ok (mkLink (strings.TrimSpace slug) (strings.TrimSpace u2) now3).
Proof.
  intros Hb1 H201 Hm2 Hb2 Hm3 Hb3 Hu2 db1 db2 db3.
  destruct (handleAdminAdd_created url_Parse now1 db r1 H201)
    as (req & _ & Hb & Hs & _ & _ & _ & Hdb1).
  rewrite Hb1 in Hb. injection Hb as <-. simpl in *. fold db1 in Hdb1.
  set (t := strings.TrimSpace slug) in *.
  assert (Hrm : handleAdminRemove db1 r2
                = (online (filter (fun l => negb (hasSlug t l)) (rows db1)),
                   writeJSON StatusOK [("status", "removed"); ("slug", t)])).
  { rewrite (handleAdminRemove_validated db1 r2 _ Hm2 Hb2 Hs).
    unfold removeLink, execDelete. simpl. fold t. rewrite Hdb1. simpl.
    rewrite filter_app, length_app. simpl.
    unfold hasSlug at 2. simpl. rewrite String.eqb_refl. simpl.
    destruct (Z.of_nat _ =? 0) eqn:Hz; [apply Z.eqb_eq in Hz; lia|].
    reflexivity. }
  assert (Hdb2 : db2 = online (filter (fun l => negb (hasSlug t l)) (rows db1)))
    by (unfold db2; rewrite Hrm; reflexivity).
  assert (Hgone : stored db2 t = false)
    by (rewrite Hdb2; apply existsb_deleted).
  assert (Hf2 : fault db2 = None) by (rewrite Hdb2; reflexivity).
  pose proof (handleAdminAdd_stores url_Parse now3 db2 r3 _ Hm3 Hb3 Hs Hu2
                Hf2 Hgone) as Hadd. simpl in Hadd. fold t in Hadd.
  split; [rewrite Hrm; reflexivity|].
  unfold db3. rewrite Hadd. simpl.
  split; [reflexivity | apply getLink_appended, Hgone].
Qed.

(** X9. While the driver fails with [text], a validated add and a validated
    remove write nothing and are answered by the text alone: the add 409
    when it contains ["UNIQUE constraint"] and 500 otherwise, the remove 404
    when it contains ["not found"] and 500 otherwise. *)
Theorem failing_store_answers_by_text now db text ra reqa rr reqr :
  fault db = Some text ->
  Method ra = MethodPost -> Body ra = Some reqa ->
  spec_validSlug (add_Slug reqa) -> spec_validURL url_Parse (add_URL reqa) ->
  Method rr = MethodPost -> Body rr = Some reqr ->
  spec_validSlug (remove_Slug reqr) ->
  handleAdminAdd url_Parse now db ra
    = (db, if strings.Contains text "UNIQUE constraint"
           then http_Error "Slug already exists" StatusConflict
           else http_Error "Internal server error" StatusInternalServerError)
  /\ handleAdminRemove db rr
     = (db, if strings.Contains text "not found"
            then http_Error "Slug not found" StatusNotFound
            else http_Error "Internal server error" StatusInternalServerError).
Proof.
  intros Hf Hma Hba Hsa Hua Hmr Hbr Hsr. split.
  - apply isValidURL_true in Hua.
    rewrite (handleAdminAdd_validated url_Parse now db ra reqa Hma Hba Hsa Hua).
    unfold addLink, execInsert. rewrite Hf. simpl.
    destruct (strings.Contains text "UNIQUE constraint"); reflexivity.
  - rewrite (handleAdminRemove_validated db rr reqr Hmr Hbr Hsr).
    unfold removeLink, execDelete. rewrite Hf. simpl.
    destruct (strings.Contains text "not found"); reflexivity.
Qed.

(** X10. On a working store no handler answers 500: an add is answered 405,
    400, 409 or 201, a remove 405, 400, 404 or 200, and [handleRoot] 200,
    302 or 404. *)
Theorem working_store_never_500 B now db ra rr (rq : Request B) :
  fault db = None ->
  In (StatusCode (snd (handleAdminAdd url_Parse now db ra)))
     [StatusMethodNotAllowed; StatusBadRequest; StatusConflict; StatusCreated]
  /\ In (StatusCode (snd (handleAdminRemove db rr)))
        [StatusMethodNotAllowed; StatusBadRequest; StatusNotFound; StatusOK]
  /\ In (StatusCode (snd (handleRoot db rq)))
        [StatusOK; StatusFound; StatusNotFound].
Proof.
  intros Hf. split; [|split].
  - unfold handleAdminAdd, addLink, execInsert. rewrite Hf.
    destruct (negb (String.eqb (Method ra) MethodPost)); [simpl; auto|].
    destruct (Body ra) as [req|]; [|simpl; auto].
    destruct (_ || _); [simpl; auto|].
    destruct (negb _); [simpl; auto|].
    destruct (existsb _ (rows db)); simpl; auto.
  - unfold handleAdminRemove, removeLink, execDelete. rewrite Hf.
    destruct (negb (String.eqb (Method rr) MethodPost)); [simpl; auto|].
    destruct (Body rr) as [req|]; [|simpl; auto].
    destruct (_ || _); [simpl; auto|].
    destruct (_ =? 0); simpl; auto 6.
  - unfold handleRoot, handleListLinks, getAllLinks, getLink, queryRow.
    rewrite Hf. destruct (String.eqb _ ""); [simpl; auto|].
    destruct (find _ (rows db)); simpl; auto.
Qed.

(** X11. [GET /] on a working store writes the listing with every stored
    link once, newest first, and with the number of stored links as its
    count; on a failing store it is answered 500. The store is returned as
    it was. *)
Theorem root_lists_store B db (r : Request B) :
  Path r = "/" ->
  (fault db = None ->
   exists links,
     handleRoot db r = (db, writeHTML links (Z.of_nat (length (rows db))))
     /\ Permutation (rows db) links
     /\ StronglySorted newerOrSame links)
  /\ (fault db <> None ->
      handleRoot db r
      = (db, http_Error "Internal server error" StatusInternalServerError)).
Proof using.
  intros Hp. unfold handleRoot, handleListLinks, getAllLinks.
  rewrite Hp. simpl. split.
  - intros ->. exists (orderByCreatedAtDesc (rows db)).
    pose proof (orderByCreatedAtDesc_perm (rows db)) as Hperm.
    rewrite <- (Permutation_length Hperm).
    split; [reflexivity | split; [exact Hperm|]].
    apply orderByCreatedAtDesc_sorted.
  - destruct (fault db); [reflexivity | congruence].
Qed.

(** X12. After an add answered 201 the listing holds the new link and is
    one link longer than the table was. *)
Theorem added_link_is_listed now db r :
  StatusCode (snd (handleAdminAdd url_Parse now db r)) = StatusCreated ->
  exists req links,
    Body r = Some req
    /\ getAllLinks (fst (handleAdminAdd url_Parse now db r)) = Ok links
    /\ In (mkLink (strings.TrimSpace (add_Slug req))
                  (strings.TrimSpace (add_URL req)) now) links
    /\ (forall l, In l (rows db) -> In l links)
    /\ length links = S (length (rows db)).
Proof.
  intros H201.
  destruct (handleAdminAdd_created url_Parse now db r H201)
    as (req & _ & Hb & _ & _ & _ & _ & ->).
  exists req. eexists. split; [exact Hb|]. split; [reflexivity|].
  simpl.
  set (row := mkLink (strings.TrimSpace (add_Slug req))
                     (strings.TrimSpace (add_URL req)) now).
  pose proof (orderByCreatedAtDesc_perm (rows db ++ [row])) as Hperm.
  repeat split.
  - apply (Permutation_in _ Hperm). apply in_or_app. right. left. reflexivity.
  - intros l Hl. apply (Permutation_in _ Hperm). apply in_or_app. auto.
  - rewrite <- (Permutation_length Hperm), length_app. simpl. lia.
Qed.

(** X13. In a reachable store the path [/admin] never redirects: it is
    answered 404. *)
Theorem admin_path_not_found B cfg db (r : Request B) :
  reachable url_Parse cfg db ->
  Path r = "/admin" ->
  handleRoot db r = (db, http_NotFound).
Proof.
  intros Hreach Hp.
  rewrite (handleRoot_slug B db r "admin" Hp) by discriminate.
  destruct (getLink db "admin") as [l|e] eqn:Hg; [|reflexivity].
  apply getLink_found in Hg as [_ Hfind].
  apply find_some in Hfind as [Hin Hs]. apply hasSlug_true in Hs.
  pose proof (reachable_wellFormed url_Parse cfg db Hreach) as Hwf.
  rewrite Forall_forall in Hwf. destruct (Hwf l Hin) as (_ & _ & Hadmin & _).
  contradiction.
Qed.



(** X16. Slugs that differ in surrounding white space only are one slug:
    after an add of [s1] answered 201, a validated add of [s2] with the same
    trimmed form is answered 409 and writes nothing. *)
Theorem trimmed_slugs_collide now1 now2 db r1 r2 req1 req2 :
  Body r1 = Some req1 ->
  StatusCode (snd (handleAdminAdd url_Parse now1 db r1)) = StatusCreated ->
  Method r2 = MethodPost -> Body r2 = Some req2 ->
  strings.TrimSpace (add_Slug req2) = strings.TrimSpace (add_Slug req1) ->
  spec_validURL url_Parse (add_URL req2) ->
  let db1 := fst (handleAdminAdd url_Parse now1 db r1) in
  handleAdminAdd url_Parse now2 db1 r2
  = (db1, http_Error "Slug already exists" StatusConflict).
Proof.
  intros Hb1 H201 Hm2 Hb2 Heq Hu2 db1.
  destruct (handleAdminAdd_created url_Parse now1 db r1 H201)
    as (req & _ & Hb & Hs & _ & _ & _ & Hdb1).
  rewrite Hb1 in Hb. injection Hb as <-. fold db1 in Hdb1.
  apply (handleAdminAdd_conflict url_Parse now2 db1 r2 req2 Hm2 Hb2).
  - unfold spec_validSlug. rewrite Heq. exact Hs.
  - exact Hu2.
  - rewrite Hdb1. reflexivity.
  - rewrite Heq, Hdb1. apply stored_appended.
Qed.

End Further.

(** ** Start-up *)

(** X17. Whatever the environment, [main] opens a database path and listens
    on an address that are not empty, and a variable set to the empty
    string counts as not set. *)
Theorem settings_never_empty env :
  dbPath (configure env) <> ""
  /\ listenAddr (configure env) <> ""
  /\ (forall key defaultValue,
        env key = Some "" \/ env key = None ->
        getEnv env key defaultValue = defaultValue)
  /\ (forall key value defaultValue,
        env key = Some value -> value <> "" ->
        getEnv env key defaultValue = value).
Proof.
  assert (Hne : forall key d, d <> "" -> getEnv env key d <> "").
  { intros key d Hd. unfold getEnv.
    destruct (String.eqb (Getenv env key) "") eqn:E; simpl; [exact Hd|].
    apply String.eqb_neq, E. }
  split; [apply Hne; discriminate|].
  split; [apply Hne; discriminate|].
  split.
  - intros key d [H|H]; unfold getEnv, Getenv; rewrite H; reflexivity.
  - intros key value d H Hv. unfold getEnv, Getenv. rewrite H.
    apply String.eqb_neq in Hv. rewrite Hv. reflexivity.
Qed.

(** X18. With [ADMIN_USER] set and [ADMIN_PASS] empty or not set, [main]
    logs that admin authentication is enabled, yet [basicAuth] hands every
    request to the wrapped handler, whatever its credentials. *)
Theorem enabled_in_log_only env user :
  env "ADMIN_USER" = Some user -> user <> "" ->
  env "ADMIN_PASS" = None \/ env "ADMIN_PASS" = Some "" ->
  In "Admin authentication enabled" (startupLog (configure env))
  /\ forall B (next : Handler B) db r,
       basicAuth (admin (configure env)) next db r = next db r.
Proof.
  intros Hu Hne Hp. split.
  - unfold startupLog, configure, Getenv. simpl. rewrite Hu.
    apply String.eqb_neq in Hne. rewrite Hne. simpl. auto.
  - intros B next db r. unfold basicAuth, configure, Getenv. simpl.
    destruct Hp as [-> | ->]; simpl; rewrite orb_true_r; reflexivity.
Qed.

(** ** Further concrete requests *)

Lemma wiki_reachable : reachable Parse cfgOpen (online [wiki]).
Proof.
  exact (reach_add Parse cfgOpen emptyDB 100 (post "/admin/add" None addWiki)
           (reach_init Parse cfgOpen)).
Defined.

Lemma docs_validURL : spec_validURL Parse "https://docs.example.com".
Proof.
  split; [right; reflexivity|].
  exists (url.mkURL "https" "docs.example.com").
  split; [reflexivity | split; evaluate].
Defined.

(** X1: the store after [wiki] was added. *)
Lemma slugs_unique_witness : NoDup (map Slug [wiki]).
Proof. exact (slugs_unique Parse cfgOpen (online [wiki]) wiki_reachable). Defined.

(** X2: [GET /wiki] where [wiki] is stored. *)
Lemma redirects_validated_witness :
  StatusFound = StatusFound
  /\ isValidURL Parse "https://wiki.example.com" = true
  /\ exists l, In l [wiki] /\ URL l = "https://wiki.example.com"
               /\ Slug l = "wiki".
Proof.
  exact (redirects_validated Parse unit cfgOpen (online [wiki]) (get "/wiki")
           (online [wiki]) "https://wiki.example.com" StatusFound
           wiki_reachable eq_refl).
Defined.

(** X3: adding [wiki] to the empty store. *)
Lemma add_writes_only_on_201_witness :
  exists l,
    rows (fst (handleAdminAdd Parse 100 emptyDB (post "/admin/add" None addWiki)))
    = [] ++ [l]
    /\ CreatedAt l = 100
    /\ snd (handleAdminAdd Parse 100 emptyDB (post "/admin/add" None addWiki))
       = writeJSON StatusCreated
           [("status", "created"); ("slug", Slug l); ("url", URL l)].
Proof.
  exact (proj2 (add_writes_only_on_201 Parse 100 emptyDB
                  (post "/admin/add" None addWiki)) eq_refl).
Defined.

(** X4: adding [docs] where [wiki] is stored. *)
Lemma add_keeps_links_witness :
  getLink (fst (handleAdminAdd Parse 200 (online [wiki])
                  (post "/admin/add" None
                        (mkAddLinkRequest "docs" "https://docs.example.com"))))
          "wiki"
  = Ok wiki.
Proof.
  exact (add_keeps_links Parse 200 (online [wiki])
           (post "/admin/add" None
                 (mkAddLinkRequest "docs" "https://docs.example.com"))
           "wiki" wiki eq_refl).
Defined.

(** X5: removing [docs] where [wiki] and [docs] are stored. *)
Lemma remove_keeps_other_links_witness :
  let db := online [wiki; mkLink "docs" "https://docs.example.com" 200] in
  let r := post "/admin/remove" None (mkRemoveLinkRequest "docs") in
  getLink (fst (handleAdminRemove db r)) "wiki" = getLink db "wiki".
Proof.
  apply (remove_keeps_other_links
           (online [wiki; mkLink "docs" "https://docs.example.com" 200])
           (post "/admin/remove" None (mkRemoveLinkRequest "docs"))
           (mkRemoveLinkRequest "docs") "wiki").
  - reflexivity.
  - evaluate.
Defined.

(** X6: removing [wiki] from the store that holds it. *)
Lemma remove_deletes_one_row_witness :
  let r := post "/admin/remove" None (mkRemoveLinkRequest "wiki") in
  (length (rows (fst (handleAdminRemove (online [wiki]) r))) + 1
   = length [wiki])%nat
  /\ exists req, Body r = Some req
       /\ stored (fst (handleAdminRemove (online [wiki]) r))
                 (strings.TrimSpace (remove_Slug req)) = false.
Proof.
  exact (proj2 (remove_deletes_one_row Parse cfgOpen (online [wiki])
                  (post "/admin/remove" None (mkRemoveLinkRequest "wiki"))
                  wiki_reachable) eq_refl).
Defined.

(** X7: removing [wiki] twice. *)
Lemma second_remove_not_found_witness :
  let r := post "/admin/remove" None (mkRemoveLinkRequest "wiki") in
  let db' := fst (handleAdminRemove (online [wiki]) r) in
  handleAdminRemove db' r = (db', http_Error "Slug not found" StatusNotFound).
Proof.
  exact (second_remove_not_found (online [wiki])
           (post "/admin/remove" None (mkRemoveLinkRequest "wiki")) eq_refl).
Defined.

(** X8: moving [wiki] to another url. *)
Lemma remove_then_add_replaces_witness :
  let r1 := post "/admin/add" None addWiki in
  let r2 := post "/admin/remove" None (mkRemoveLinkRequest "wiki") in
  let r3 := post "/admin/add" None
                 (mkAddLinkRequest "wiki" "https://docs.example.com") in
  let db1 := fst (handleAdminAdd Parse 100 emptyDB r1) in
  let db2 := fst (handleAdminRemove db1 r2) in
  let db3 := fst (handleAdminAdd Parse 300 db2 r3) in
  StatusCode (snd (handleAdminRemove db1 r2)) = StatusOK
  /\ StatusCode (snd (handleAdminAdd Parse 300 db2 r3)) = StatusCreated
  /\ getLink db3 "wiki" = Ok (mkLink "wiki" "https://docs.example.com" 300).
Proof.
  exact (remove_then_add_replaces Parse 100 300 emptyDB
           (post "/admin/add" None addWiki)
           (post "/admin/remove" None (mkRemoveLinkRequest "wiki"))
           (post "/admin/add" None
                 (mkAddLinkRequest "wiki" "https://docs.example.com"))
           "wiki" "https://wiki.example.com" "https://docs.example.com"
           eq_refl eq_refl eq_refl eq_refl eq_refl eq_refl docs_validURL).
Defined.

(** X9: a locked database. *)
Lemma failing_store_answers_by_text_witness :
  let db := mkDB [wiki] (Some "database is locked") in
  handleAdminAdd Parse 200 db (post "/admin/add" None addWiki)
  = (db, http_Error "Internal server error" StatusInternalServerError)
  /\ handleAdminRemove db (post "/admin/remove" None (mkRemoveLinkRequest "wiki"))
     = (db, http_Error "Internal server error" StatusInternalServerError).
Proof.
  exact (failing_store_answers_by_text Parse 200
           (mkDB [wiki] (Some "database is locked")) "database is locked"
           (post "/admin/add" None addWiki) addWiki
           (post "/admin/remove" None (mkRemoveLinkRequest "wiki"))
           (mkRemoveLinkRequest "wiki")
           eq_refl eq_refl eq_refl wiki_validSlug wiki_validURL
           eq_refl eq_refl wiki_validSlug).
Defined.

(** X10: three requests on the store that holds [wiki]. *)
Lemma working_store_never_500_witness :
  In (StatusCode (snd (handleAdminAdd Parse 200 (online [wiki])
                         (post "/admin/add" None addWiki))))
     [StatusMethodNotAllowed; StatusBadRequest; StatusConflict; StatusCreated]
  /\ In (StatusCode (snd (handleAdminRemove (online [wiki])
                            (post "/admin/remove" None
                                  (mkRemoveLinkRequest "docs")))))
        [StatusMethodNotAllowed; StatusBadRequest; StatusNotFound; StatusOK]
  /\ In (StatusCode (snd (handleRoot (online [wiki]) (get "/"))))
        [StatusOK; StatusFound; StatusNotFound].
Proof.
  exact (working_store_never_500 Parse unit 200 (online [wiki])
           (post "/admin/add" None addWiki)
           (post "/admin/remove" None (mkRemoveLinkRequest "docs"))
           (get "/") eq_refl).
Defined.

(** X11: the listing of the store that holds [wiki]. *)
Lemma root_lists_store_witness :
  exists links,
    handleRoot (online [wiki]) (get "/") = (online [wiki], writeHTML links 1)
    /\ Permutation [wiki] links
    /\ StronglySorted newerOrSame links.
Proof.
  exact (proj1 (root_lists_store unit (online [wiki]) (get "/") eq_refl)
               eq_refl).
Defined.

(** X12: the listing after [wiki] was added. *)
Lemma added_link_is_listed_witness :
  let r := post "/admin/add" None addWiki in
  exists req links,
    Body r = Some req
    /\ getAllLinks (fst (handleAdminAdd Parse 100 emptyDB r)) = Ok links
    /\ In (mkLink (strings.TrimSpace (add_Slug req))
                  (strings.TrimSpace (add_URL req)) 100) links
    /\ (forall l, In l [] -> In l links)
    /\ length links = 1%nat.
Proof.
  exact (added_link_is_listed Parse 100 emptyDB
           (post "/admin/add" None addWiki) eq_refl).
Defined.

(** X13: [GET /admin] where [wiki] is stored. *)
Lemma admin_path_not_found_witness :
  handleRoot (online [wiki]) (get "/admin") = (online [wiki], http_NotFound).
Proof.
  exact (admin_path_not_found Parse unit cfgOpen (online [wiki]) (get "/admin")
           wiki_reachable eq_refl).
Defined.



(** X16: adding [wiki] and then [wiki] between spaces. *)
Lemma trimmed_slugs_collide_witness :
  let r1 := post "/admin/add" None addWiki in
  let r2 := post "/admin/add" None
                 (mkAddLinkRequest " wiki " "https://docs.example.com") in
  let db1 := fst (handleAdminAdd Parse 100 emptyDB r1) in
  handleAdminAdd Parse 200 db1 r2
  = (db1, http_Error "Slug already exists" StatusConflict).
Proof.
  exact (trimmed_slugs_collide Parse 100 200 emptyDB
           (post "/admin/add" None addWiki)
           (post "/admin/add" None
                 (mkAddLinkRequest " wiki " "https://docs.example.com"))
           addWiki (mkAddLinkRequest " wiki " "https://docs.example.com")
           eq_refl eq_refl eq_refl eq_refl eq_refl docs_validURL).
Defined.

(** X17: [DB_PATH] set to the empty string. *)
Lemma settings_never_empty_witness :
  let env := fun key => if String.eqb key "DB_PATH" then Some "" else None in
  getEnv env "DB_PATH" "./data/links.db" = "./data/links.db"
  /\ dbPath (configure env) = "./data/links.db".
Proof.
  split.
  - apply (proj1 (proj2 (proj2 (settings_never_empty
             (fun key => if String.eqb key "DB_PATH" then Some "" else None))))).
    left. reflexivity.
  - reflexivity.
Defined.

(** X18: [ADMIN_USER] alone. *)
Lemma enabled_in_log_only_witness :
  let env := fun key => if String.eqb key "ADMIN_USER" then Some "root" else None in
  In "Admin authentication enabled" (startupLog (configure env))
  /\ forall B (next : Handler B) db r,
       basicAuth (admin (configure env)) next db r = next db r.
Proof.
  apply (enabled_in_log_only
           (fun key => if String.eqb key "ADMIN_USER" then Some "root" else None)
           "root").
  - reflexivity.
  - discriminate.
  - left. reflexivity.
Defined.
